(** * MoltID: trust scoring and the vouch graph

    A shallow embedding of the trust service ([TrustService]), the agent
    service ([AgentService]) and the vouch endpoint ([POST /:id/vouch]),
    together with the properties of the trust score and of the vouch graph.

    Conventions of the embedding.
    - JavaScript numbers that hold counts, karma, scores and millisecond
      timestamps are integers ([Z]); [Math.floor (a / b)] for a positive
      divisor is [Z.div], which rounds towards minus infinity as
      [Math.floor] does.
    - A timestamp column is represented by the value [getTime ()] returns
      for it (milliseconds since the epoch).
    - The INTEGER column [moltbook_verified] only ever receives 0 or 1
      ([DEFAULT 0], and [update] writes [? 1 : 0]); it is a [bool].
    - The D1 database is an explicit state threaded through a state and
      exception monad [M]; [Date.now ()] and [nanoid] are inputs. *)

From Stdlib Require Import ZArith Lia.
From stdpp Require Import gmap strings list sorting.

Local Open Scope Z_scope.

(** ** Data model ([src/types.ts], [src/db/schema.sql]) *)

Inductive Status := pending | active | suspended.

Record Agent := {
  id : string;
  moltbook_username : option string;
  moltbook_verified : bool;
  moltbook_karma : option Z;
  public_key : option string;
  capabilities : list string;
  trust_score : Z;
  vouch_count : Z;
  status : Status;
  verification_code : option string;
  created_at : Z;
  updated_at : Z
}.

Record Vouch := {
  v_id : string;
  from_agent_id : string;
  to_agent_id : string;
  v_created_at : Z
}.

Record TrustFactors := {
  f_moltbook_verified : Z;
  f_karma : Z;
  f_age : Z;
  f_vouches : Z
}.

Record TrustDetails := {
  score : Z;
  factors : TrustFactors;
  d_moltbook_verified : bool;
  d_moltbook_karma : option Z;
  d_vouch_count : Z;
  age_days : Z
}.

(** The two tables. [agents] is keyed by its primary key; [vouches] keeps
    its rows in insertion order.  [foreign_keys] is the engine's setting for
    the enforcement of the [FOREIGN KEY] clauses of the schema. *)
Record D1Database := {
  agents : gmap string Agent;
  vouches : list Vouch;
  foreign_keys : bool
}.

(** ** TrustService *)

Definition MOLTBOOK_VERIFIED_POINTS : Z := 20.
Definition KARMA_MAX_POINTS : Z := 30.
Definition KARMA_DIVISOR : Z := 100.
Definition AGE_MAX_POINTS : Z := 20.
Definition VOUCH_POINTS_EACH : Z := 5.
Definition VOUCH_MAX_POINTS : Z := 30.
Definition MAX_TOTAL_SCORE : Z := 100.

(** [1000 * 60 * 60 * 24] *)
Definition MS_PER_DAY : Z := 1000 * 60 * 60 * 24.

(** [x || 0] on a nullable number: [null] and [0] both give [0]. *)
Definition or_zero (x : option Z) : Z :=
  match x with
  | Some k => k
  | None => 0
  end.

(** [Math.floor((Date.now() - createdAt.getTime()) / (1000*60*60*24))] *)
Definition ageDays (now created : Z) : Z := (now - created) / MS_PER_DAY.

Definition moltbookFactor (agent : Agent) : Z :=
  if moltbook_verified agent then MOLTBOOK_VERIFIED_POINTS else 0.

Definition karmaFactor (karma : option Z) : Z :=
  Z.min (or_zero karma / KARMA_DIVISOR) KARMA_MAX_POINTS.

Definition ageFactor (now created : Z) : Z :=
  Z.min (ageDays now created) AGE_MAX_POINTS.

(** The row filter of
    [SELECT COUNT( * ) FROM vouches v JOIN agents a ON v.from_agent_id = a.id
     WHERE v.to_agent_id = ? AND a.moltbook_verified = 1]:
    a vouch row survives when it joins an agent row (its voucher exists)
    that is verified, and it points at the bound id. *)
Definition joins_verified (db : D1Database) (agentId : string) (v : Vouch) : bool :=
  match agents db !! from_agent_id v with
  | Some a => bool_decide (to_agent_id v = agentId) && moltbook_verified a
  | None => false
  end.

Definition verifiedVouches (db : D1Database) (agentId : string) : Z :=
  Z.of_nat (length (List.filter (joins_verified db agentId) (vouches db))).

Definition vouchPoints (vouchCount : Z) : Z :=
  Z.min (vouchCount * VOUCH_POINTS_EACH) VOUCH_MAX_POINTS.

(** [TrustService.calculateScore]; [now] is [Date.now ()]. *)
Definition calculateScore (db : D1Database) (agentId : string) (now : Z) : Z :=
  match agents db !! agentId with
  | None => 0
  | Some agent =>
      let score := 0 in
      let score :=
        if moltbook_verified agent then score + MOLTBOOK_VERIFIED_POINTS else score in
      let karma := or_zero (moltbook_karma agent) in
      let score := score + Z.min (karma / KARMA_DIVISOR) KARMA_MAX_POINTS in
      let score := score + Z.min (ageDays now (created_at agent)) AGE_MAX_POINTS in
      let vouchCount := verifiedVouches db agentId in
      let score := score + Z.min (vouchCount * VOUCH_POINTS_EACH) VOUCH_MAX_POINTS in
      Z.min score MAX_TOTAL_SCORE
  end.

(** [TrustService.getDetails]: the breakdown is computed from the agent
    record alone; the score is the stored one. *)
Definition getDetails (agent : Agent) (now : Z) : TrustDetails :=
  let days := ageDays now (created_at agent) in
  {| score := trust_score agent;
     factors :=
       {| f_moltbook_verified := moltbookFactor agent;
          f_karma := karmaFactor (moltbook_karma agent);
          f_age := Z.min days AGE_MAX_POINTS;
          f_vouches := Z.min (vouch_count agent * VOUCH_POINTS_EACH) VOUCH_MAX_POINTS |};
     d_moltbook_verified := moltbook_verified agent;
     d_moltbook_karma := moltbook_karma agent;
     d_vouch_count := vouch_count agent;
     age_days := days |}.

Definition factors_sum (f : TrustFactors) : Z :=
  f_moltbook_verified f + f_karma f + f_age f + f_vouches f.

(** ** The store: a state and exception monad over the database *)

Inductive D1Error :=
  | UniqueConstraint (columns : string)
  | ForeignKeyConstraint.

(** The text SQLite reports for a failed constraint. *)
Definition error_message (e : D1Error) : string :=
  match e with
  | UniqueConstraint columns => "UNIQUE constraint failed: " +:+ columns
  | ForeignKeyConstraint => "FOREIGN KEY constraint failed"
  end.

Inductive Result (A : Type) :=
  | Ok (a : A)
  | Throw (e : D1Error).
Arguments Ok {A} a.
Arguments Throw {A} e.

Definition M (A : Type) : Type := D1Database -> Result A * D1Database.

#[export] Instance M_ret : MRet M := fun A a db => (Ok a, db).
#[export] Instance M_bind : MBind M := fun A B f m db =>
  match m db with
  | (Ok a, db') => f a db'
  | (Throw e, db') => (Throw e, db')
  end.

Definition throw {A} (e : D1Error) : M A := fun db => (Throw e, db).
Definition query {A} (q : D1Database -> A) : M A := fun db => (Ok (q db), db).
Definition exec (f : D1Database -> D1Database) : M unit := fun db => (Ok tt, f db).

(** [try { body } catch (error) { handler }] *)
Definition try_catch {A} (body : M A) (handler : D1Error -> M A) : M A :=
  fun db =>
    match body db with
    | (Ok a, db') => (Ok a, db')
    | (Throw e, db') => handler e db'
    end.

(** ** AgentService *)

(** [getById]: [SELECT * FROM agents WHERE id = ?], then [parseAgent], whose
    conversions ([!!], [|| 0]) are identities on this representation. *)
Definition getById (agentId : string) : M (option Agent) :=
  query (fun db => agents db !! agentId).

(** [Partial<Agent>] restricted to the fields [update] looks at; [None] is
    [undefined]. *)
Record AgentUpdates := {
  u_moltbook_verified : option bool;
  u_moltbook_karma : option (option Z);
  u_trust_score : option Z;
  u_vouch_count : option Z;
  u_status : option Status;
  u_capabilities : option (list string);
  u_public_key : option (option string)
}.

Definition no_updates : AgentUpdates :=
  {| u_moltbook_verified := None; u_moltbook_karma := None; u_trust_score := None;
     u_vouch_count := None; u_status := None; u_capabilities := None;
     u_public_key := None |}.

Definition only_trust_score (newScore : Z) : AgentUpdates :=
  {| u_moltbook_verified := None; u_moltbook_karma := None;
     u_trust_score := Some newScore;
     u_vouch_count := None; u_status := None; u_capabilities := None;
     u_public_key := None |}.

(** [fields.length === 0] *)
Definition nothing_to_update (u : AgentUpdates) : bool :=
  match u with
  | {| u_moltbook_verified := None; u_moltbook_karma := None; u_trust_score := None;
       u_vouch_count := None; u_status := None; u_capabilities := None;
       u_public_key := None |} => true
  | _ => false
  end.

(** The [SET] clause built by [update], applied to one row. *)
Definition set_fields (u : AgentUpdates) (now : Z) (a : Agent) : Agent :=
  {| id := id a;
     moltbook_username := moltbook_username a;
     moltbook_verified := default (moltbook_verified a) (u_moltbook_verified u);
     moltbook_karma := default (moltbook_karma a) (u_moltbook_karma u);
     public_key := default (public_key a) (u_public_key u);
     capabilities := default (capabilities a) (u_capabilities u);
     trust_score := default (trust_score a) (u_trust_score u);
     vouch_count := default (vouch_count a) (u_vouch_count u);
     status := default (status a) (u_status u);
     verification_code := verification_code a;
     created_at := created_at a;
     updated_at := now |}.

Definition with_agents (f : gmap string Agent -> gmap string Agent)
    (db : D1Database) : D1Database :=
  {| agents := f (agents db); vouches := vouches db; foreign_keys := foreign_keys db |}.

Definition with_vouches (f : list Vouch -> list Vouch) (db : D1Database) : D1Database :=
  {| agents := agents db; vouches := f (vouches db); foreign_keys := foreign_keys db |}.

(** [AgentService.update]: [UPDATE agents SET ... WHERE id = ?] touches the
    row with that key, if there is one. *)
Definition update (agentId : string) (updates : AgentUpdates) (now : Z) : M unit :=
  if nothing_to_update updates then mret tt
  else exec (with_agents (alter (set_fields updates now) agentId)).

(** [INSERT INTO vouches (id, from_agent_id, to_agent_id) VALUES (?, ?, ?)]
    under the constraints of the table: the primary key, [UNIQUE
    (from_agent_id, to_agent_id)], and the two foreign keys when the engine
    enforces them.  A uniqueness violation aborts the statement at once; the
    foreign keys are looked at when the statement ends.  A statement that
    fails leaves the database as it was. *)
Definition has_id (vid : string) (w : Vouch) : bool := bool_decide (v_id w = vid).

Definition is_pair (fromId toId : string) (w : Vouch) : bool :=
  bool_decide (from_agent_id w = fromId) && bool_decide (to_agent_id w = toId).

Definition references_agents (db : D1Database) (v : Vouch) : bool :=
  bool_decide (is_Some (agents db !! from_agent_id v))
  && bool_decide (is_Some (agents db !! to_agent_id v)).

Definition insert_vouch (v : Vouch) : M unit :=
  fun db =>
    if existsb (has_id (v_id v)) (vouches db) then
      (Throw (UniqueConstraint "vouches.id"), db)
    else if existsb (is_pair (from_agent_id v) (to_agent_id v)) (vouches db) then
      (Throw (UniqueConstraint "vouches.from_agent_id, vouches.to_agent_id"), db)
    else if foreign_keys db && negb (references_agents db v) then
      (Throw ForeignKeyConstraint, db)
    else (Ok tt, with_vouches (fun rows => rows ++ [v]) db).

(** [UPDATE agents SET vouch_count = vouch_count + 1, updated_at = ?
     WHERE id = ?], on one row. *)
Definition bump_vouch_count (now : Z) (a : Agent) : Agent :=
  {| id := id a;
     moltbook_username := moltbook_username a;
     moltbook_verified := moltbook_verified a;
     moltbook_karma := moltbook_karma a;
     public_key := public_key a;
     capabilities := capabilities a;
     trust_score := trust_score a;
     vouch_count := vouch_count a + 1;
     status := status a;
     verification_code := verification_code a;
     created_at := created_at a;
     updated_at := now |}.

(** [AgentService.addVouch]; [nanoid12] is the result of [nanoid(12)] and
    [now] the clock read for [updated_at]. *)
Definition addVouch (nanoid12 : string) (now : Z) (fromId toId : string) : M unit :=
  let vid := "vch_" +:+ nanoid12 in
  insert_vouch
    {| v_id := vid; from_agent_id := fromId; to_agent_id := toId; v_created_at := now |} ;;
  exec (with_agents (alter (bump_vouch_count now) toId)).

(** [AgentService.getVouches] *)
Definition getVouches (agentId : string) : M (list string) :=
  query (fun db =>
    from_agent_id <$>
      List.filter (fun v => bool_decide (to_agent_id v = agentId)) (vouches db)).

(** ** The vouch endpoint ([src/routes/agents.ts]) *)

(** [String.prototype.includes] *)
Fixpoint includes (s sub : string) : bool :=
  String.prefix sub s
  || match s with
     | EmptyString => false
     | String _ rest => includes rest sub
     end.

Inductive Response :=
  | JsonInvalidBody
  | JsonError (http_status : Z) (code message : string)
  | JsonVouchAdded (new_trust_score : Z).

Definition http_status_of (r : Response) : Z :=
  match r with
  | JsonInvalidBody => 400
  | JsonError st _ _ => st
  | JsonVouchAdded _ => 200
  end.

(** [vouchSchema]: [from_agent_id: z.string().min(1)] *)
Definition vouchSchema (from_agent_id : string) : bool :=
  negb (bool_decide (from_agent_id = EmptyString)).

(** What the handler reads from outside the database: the random id and the
    three clock reads (in [addVouch], [calculateScore] and [update]). *)
Record Env := {
  env_nanoid : string;
  now_addVouch : Z;
  now_calculateScore : Z;
  now_update : Z
}.

Definition not_verified (voucher : option Agent) : bool :=
  match voucher with
  | None => true
  | Some a => negb (moltbook_verified a)
  end.

(** [POST /:id/vouch] *)
Definition vouch_route (env : Env) (toId from_agent_id : string) : M Response :=
  if negb (vouchSchema from_agent_id) then mret JsonInvalidBody else
  voucher ← getById from_agent_id;
  if not_verified voucher then
    mret (JsonError 403 "unauthorized" "Only verified agents can vouch")
  else
  target ← getById toId;
  if bool_decide (target = None :> option Agent) then
    mret (JsonError 404 "not_found" "Agent not found")
  else
  if bool_decide (from_agent_id = toId) then
    mret (JsonError 400 "invalid_vouch" "Cannot vouch for yourself")
  else
  try_catch
    (addVouch (env_nanoid env) (now_addVouch env) from_agent_id toId ;;
     newScore ← query (fun db => calculateScore db toId (now_calculateScore env));
     update toId (only_trust_score newScore) (now_update env) ;;
     mret (JsonVouchAdded newScore))
    (fun error =>
       let errorMessage := error_message error in
       if includes errorMessage "UNIQUE constraint" then
         mret (JsonError 409 "already_vouched" "Already vouched for this agent")
       else throw error).

(** ** Sample data *)

(** The row [AgentService.create] inserts: every column it does not bind
    takes its schema default. *)
Definition created_row (agentId : string) (username : option string) (now : Z) : Agent :=
  {| id := agentId;
     moltbook_username := username;
     moltbook_verified := false;
     moltbook_karma := None;
     public_key := None;
     capabilities := [];
     trust_score := 0;
     vouch_count := 0;
     status := pending;
     verification_code := Some ("moltid-verify:" +:+ agentId);
     created_at := now;
     updated_at := now |}.

Definition empty_db : D1Database :=
  {| agents := ∅; vouches := []; foreign_keys := true |}.

Definition add_row (a : Agent) (db : D1Database) : D1Database :=
  with_agents (insert (id a) a) db.

(** 2026-01-01T00:00:00Z, in milliseconds. *)
Definition t0 : Z := 1767225600000.

(** A record whose [created_at] lies one day after the clock read [t0]. *)
Definition future_agent : Agent := created_row "mlt_future" None (t0 + MS_PER_DAY).

Definition db_future : D1Database := add_row future_agent empty_db.

(** A verified record that imported a karma of -2500. *)
Definition downvoted_agent : Agent :=
  set_fields
    {| u_moltbook_verified := Some true; u_moltbook_karma := Some (Some (-2500));
       u_trust_score := None; u_vouch_count := None; u_status := Some active;
       u_capabilities := None; u_public_key := None |}
    t0 (created_row "mlt_downvoted" (Some "downvoted") t0).

Definition db_downvoted : D1Database := add_row downvoted_agent empty_db.

(** The factor formulas as the specification words them: a value clamped to
    an interval. *)
Definition clamp (lo hi x : Z) : Z := Z.max lo (Z.min x hi).

Definition spec_karma_factor (karma : option Z) : Z :=
  clamp 0 30 (or_zero karma / 100).

Definition spec_age_factor (now created : Z) : Z :=
  clamp 0 20 ((now - created) / MS_PER_DAY).

(** A record verified at [t0] with no karma to import, whose score was
    computed and stored at that moment. *)
Definition verified_row : Agent :=
  set_fields
    {| u_moltbook_verified := Some true; u_moltbook_karma := Some (Some 0);
       u_trust_score := None; u_vouch_count := None; u_status := Some active;
       u_capabilities := None; u_public_key := None |}
    t0 (created_row "mlt_verified" (Some "verified") t0).

Definition db_verified : D1Database :=
  let db := add_row verified_row empty_db in
  snd (update "mlt_verified"
         (only_trust_score (calculateScore db "mlt_verified" t0)) t0 db).

Definition stored_verified_agent : Agent :=
  default verified_row (agents db_verified !! "mlt_verified").

(** ** Views of the vouch graph used in the statements *)

(** There is an edge [fromId -> toId]. *)
Definition has_edge (db : D1Database) (fromId toId : string) : bool :=
  existsb (is_pair fromId toId) (vouches db).

(** The edge set, as (voucher, recipient) pairs. *)
Definition edges (db : D1Database) : list (string * string) :=
  (fun v => (from_agent_id v, to_agent_id v)) <$> vouches db.

(** The stored counter of incoming vouches of an agent, if it exists. *)
Definition counter (db : D1Database) (agentId : string) : option Z :=
  vouch_count <$> agents db !! agentId.

(** The id [addVouch] gives the new row is not taken. *)
Definition fresh_vouch_id (db : D1Database) (nanoid12 : string) : bool :=
  negb (existsb (has_id ("vch_" +:+ nanoid12)) (vouches db)).

(** The foreign keys of a new row [fromId -> toId] hold, or are not
    enforced. *)
Definition foreign_keys_ok (db : D1Database) (fromId toId : string) : bool :=
  negb (foreign_keys db)
  || (bool_decide (is_Some (agents db !! fromId))
      && bool_decide (is_Some (agents db !! toId))).

(** The specification's count of qualifying vouches: the incoming edges of
    [toId] whose voucher satisfies [isVoucherVerified] when the count is
    taken. *)
Definition qualifyingVouchCount (rows : list Vouch) (toId : string)
    (isVoucherVerified : string -> bool) : Z :=
  Z.of_nat (length (List.filter
    (fun v => bool_decide (to_agent_id v = toId) && isVoucherVerified (from_agent_id v))
    rows)).

(** The voucher's verification flag in the current state of the store. *)
Definition isVoucherVerified (db : D1Database) (fromId : string) : bool :=
  match agents db !! fromId with
  | Some a => moltbook_verified a
  | None => false
  end.

(** A change of an agent's status, as [update] performs it. *)
Definition only_status (s : Status) : AgentUpdates :=
  {| u_moltbook_verified := None; u_moltbook_karma := None; u_trust_score := None;
     u_vouch_count := None; u_status := Some s; u_capabilities := None;
     u_public_key := None |}.

Definition set_status (agentId : string) (s : Status) (now : Z)
    (db : D1Database) : D1Database :=
  snd (update agentId (only_status s) now db).

(** The row a successful [addVouch] inserts, and the store it leaves. *)
Definition vouch_row (nanoid12 : string) (now : Z) (fromId toId : string) : Vouch :=
  {| v_id := "vch_" +:+ nanoid12; from_agent_id := fromId; to_agent_id := toId;
     v_created_at := now |}.

Definition after_addVouch (nanoid12 : string) (now : Z) (fromId toId : string)
    (db : D1Database) : D1Database :=
  {| agents := alter (bump_vouch_count now) toId (agents db);
     vouches := vouches db ++ [vouch_row nanoid12 now fromId toId];
     foreign_keys := foreign_keys db |}.

(** The store a successful vouch request leaves: the edge is added, then
    the recomputed score is written to the recipient's row. *)
Definition after_vouch_route (env : Env) (toId fromId : string)
    (db : D1Database) : D1Database :=
  let db1 := after_addVouch (env_nanoid env) (now_addVouch env) fromId toId db in
  with_agents
    (alter (set_fields (only_trust_score (calculateScore db1 toId (now_calculateScore env)))
              (now_update env)) toId)
    db1.

(** What [calculateScore] reads of an agent row. *)
Definition score_view (a : Agent) : bool * option Z * Z :=
  (moltbook_verified a, moltbook_karma a, created_at a).

Definition same_views (db db' : D1Database) : Prop :=
  forall k, score_view <$> agents db' !! k = score_view <$> agents db !! k.

(** Two registered agents: [mlt_alice], verified with an imported karma of
    1500, and [mlt_bob], just created. *)
Definition alice : Agent :=
  set_fields
    {| u_moltbook_verified := Some true; u_moltbook_karma := Some (Some 1500);
       u_trust_score := None; u_vouch_count := None; u_status := Some active;
       u_capabilities := None; u_public_key := None |}
    t0 (created_row "mlt_alice" (Some "alice") t0).

Definition bob : Agent := created_row "mlt_bob" (Some "bob") t0.

Definition db_pair : D1Database := add_row alice (add_row bob empty_db).

(** A vouch request handled one day after [t0]. *)
Definition env1 : Env :=
  {| env_nanoid := "V1StGXR8_Z5j";
     now_addVouch := t0 + MS_PER_DAY;
     now_calculateScore := t0 + MS_PER_DAY;
     now_update := t0 + MS_PER_DAY |}.

(** The same request again, a second later, with another random id. *)
Definition env2 : Env :=
  {| env_nanoid := "3IBBoOd_u9sp";
     now_addVouch := t0 + MS_PER_DAY + 1000;
     now_calculateScore := t0 + MS_PER_DAY + 1000;
     now_update := t0 + MS_PER_DAY + 1000 |}.

(** The store after alice has vouched for bob. *)
Definition db_vouched : D1Database := snd (vouch_route env1 "mlt_bob" "mlt_alice" db_pair).

(** Bob's row in that store. *)
Definition stored_bob : Agent := default bob (agents db_vouched !! "mlt_bob").

(** ** AgentService: registration and lookups *)

(** [AgentCreateInput]; [None] is [undefined]. *)
Record AgentCreateInput := {
  in_moltbook_username : option string;
  in_public_key : option string;
  in_capabilities : option (list string)
}.

(** [x || null] on an optional string: [undefined] and the empty string
    both give [null]. *)
Definition or_null (x : option string) : option string :=
  match x with
  | Some s => if bool_decide (s = EmptyString) then None else Some s
  | None => None
  end.

(** The row of [INSERT INTO agents (id, moltbook_username, public_key,
    capabilities, verification_code)]: the five bound columns, and the schema
    default in every other one; [now] is the timestamp the engine stores. *)
Definition new_agent_row (agentId : string) (input : AgentCreateInput) (now : Z) : Agent :=
  {| id := agentId;
     moltbook_username := or_null (in_moltbook_username input);
     moltbook_verified := false;
     moltbook_karma := None;
     public_key := or_null (in_public_key input);
     capabilities := default [] (in_capabilities input);
     trust_score := 0;
     vouch_count := 0;
     status := pending;
     verification_code := Some ("moltid-verify:" +:+ agentId);
     created_at := now;
     updated_at := now |}.

(** [moltbook_username TEXT UNIQUE]: a non-null name may be held by one row
    only; any number of rows may hold [NULL]. *)
Definition username_taken (db : D1Database) (username : option string) : bool :=
  match username with
  | None => false
  | Some u =>
      bool_decide (map_Exists (fun _ a => moltbook_username a = Some u) (agents db))
  end.

Definition insert_agent (row : Agent) : M unit :=
  fun db =>
    if bool_decide (is_Some (agents db !! id row)) then
      (Throw (UniqueConstraint "agents.id"), db)
    else if username_taken db (moltbook_username row) then
      (Throw (UniqueConstraint "agents.moltbook_username"), db)
    else (Ok tt, with_agents (insert (id row) row) db).

(** [AgentService.create]; [nanoid12] is the result of [nanoid(12)]. *)
Definition create (nanoid12 : string) (now : Z) (input : AgentCreateInput)
    : M (option Agent) :=
  let agentId := "mlt_" +:+ nanoid12 in
  insert_agent (new_agent_row agentId input now) ;;
  getById agentId.

(** [AgentService.getByMoltbook]: the first row with that username. *)
Definition getByMoltbook (username : string) : M (option Agent) :=
  query (fun db =>
    head (List.filter (fun a => bool_decide (moltbook_username a = Some username))
            (snd <$> map_to_list (agents db)))).

(** [AgentPublic] *)
Record AgentPublic := {
  p_id : string;
  p_moltbook_username : option string;
  p_moltbook_verified : bool;
  p_capabilities : list string;
  p_trust_score : Z;
  p_vouch_count : Z;
  p_status : Status;
  p_created_at : Z
}.

(** [AgentService.toPublic] *)
Definition toPublic (agent : Agent) : AgentPublic :=
  {| p_id := id agent;
     p_moltbook_username := moltbook_username agent;
     p_moltbook_verified := moltbook_verified agent;
     p_capabilities := capabilities agent;
     p_trust_score := trust_score agent;
     p_vouch_count := vouch_count agent;
     p_status := status agent;
     p_created_at := created_at agent |}.

(** ** AgentService.verifyMoltbook *)

(** What the profile request to Moltbook produced.  [body] is the parsed
    JSON, [None] when [response.json()] throws. *)
Record MoltbookPost := { post_content : option string; post_title : option string }.

Record MoltbookData := {
  md_success : bool;
  md_karma : option Z;
  md_recentPosts : option (list MoltbookPost)
}.

Inductive FetchOutcome :=
  | FetchThrows
  | FetchResponse (ok : bool) (body : option MoltbookData).

Record VerifyResult := { vr_verified : bool; vr_karma : option Z }.

(** [!s] on a nullable string. *)
Definition falsy_string (s : option string) : bool :=
  match s with
  | None => true
  | Some s => bool_decide (s = EmptyString)
  end.

(** [post.content?.includes(code) || post.title?.includes(code)] *)
Definition post_mentions (code : string) (post : MoltbookPost) : bool :=
  match post_content post with
  | Some c => includes c code
  | None => false
  end
  || match post_title post with
     | Some t => includes t code
     | None => false
     end.

Definition verifyMoltbook (agent : Agent) (fetched : FetchOutcome) : VerifyResult :=
  if falsy_string (moltbook_username agent) || falsy_string (verification_code agent)
  then {| vr_verified := false; vr_karma := None |}
  else
    match fetched with
    | FetchThrows => {| vr_verified := false; vr_karma := None |}
    | FetchResponse false _ => {| vr_verified := false; vr_karma := None |}
    | FetchResponse true None => {| vr_verified := false; vr_karma := None |}
    | FetchResponse true (Some data) =>
        if negb (md_success data) then {| vr_verified := false; vr_karma := None |}
        else
          let karma := or_zero (md_karma data) in
          let posts := default [] (md_recentPosts data) in
          if existsb (post_mentions (default EmptyString (verification_code agent))) posts
          then {| vr_verified := true; vr_karma := Some karma |}
          else {| vr_verified := false; vr_karma := None |}
    end.

(** ** The other endpoints of [src/routes/agents.ts] *)

Inductive Reply (A : Type) :=
  | ReplyInvalidBody
  | ReplyError (http_status : Z) (code message : string)
  | ReplyData (http_status : Z) (data : A).
Arguments ReplyInvalidBody {A}.
Arguments ReplyError {A} http_status code message.
Arguments ReplyData {A} http_status data.

(** [createAgentSchema]: an optional username of 1 to 64 characters. *)
Definition createAgentSchema (input : AgentCreateInput) : bool :=
  match in_moltbook_username input with
  | None => true
  | Some u => (1 <=? String.length u)%nat && (String.length u <=? 64)%nat
  end.

(** [POST /] *)
Definition create_route (nanoid12 : string) (now : Z) (input : AgentCreateInput)
    : M (Reply (option Agent)) :=
  if negb (createAgentSchema input) then mret ReplyInvalidBody else
  try_catch
    (agent ← create nanoid12 now input;
     mret (ReplyData 201 agent))
    (fun error =>
       let errorMessage := error_message error in
       if includes errorMessage "UNIQUE constraint" then
         mret (ReplyError 409 "already_exists" "Moltbook username already registered")
       else throw error).

(** [GET /:id/trust]; [now] is the clock read of [getDetails]. *)
Definition trust_route (now : Z) (agentId : string) : M (Reply TrustDetails) :=
  agent ← getById agentId;
  match agent with
  | None => mret (ReplyError 404 "not_found" "Agent not found")
  | Some a => mret (ReplyData 200 (getDetails a now))
  end.

(** The body of a successful verification. *)
Record VerifyData := {
  vd_verified : bool;
  vd_karma_imported : option Z;
  vd_trust_score : Z;
  vd_agent : option AgentPublic
}.

(** The three clock reads of the verification handler: in the first
    [update], in [calculateScore] and in the second [update]. *)
Record VerifyEnv := {
  now_verified : Z;
  now_rescore : Z;
  now_stored : Z
}.

Definition verified_updates (karma : option Z) : AgentUpdates :=
  {| u_moltbook_verified := Some true;
     u_moltbook_karma := match karma with Some k => Some (Some k) | None => None end;
     u_trust_score := None; u_vouch_count := None; u_status := Some active;
     u_capabilities := None; u_public_key := None |}.

(** The double quote character. *)
Definition dquote : string := String (Ascii.ascii_of_nat 34) EmptyString.

Definition verification_failed_message (agent : Agent) : string :=
  "Verification code not found. Add " +:+ dquote
  +:+ default "null" (verification_code agent) +:+ dquote
  +:+ " to your Moltbook bio or post.".

(** [POST /:id/verify/moltbook]; [fetched] is what the profile request
    produces if it is made. *)
Definition verify_route (env : VerifyEnv) (agentId : string) (fetched : FetchOutcome)
    : M (Reply VerifyData) :=
  found ← getById agentId;
  match found with
  | None => mret (ReplyError 404 "not_found" "Agent not found")
  | Some a =>
      if falsy_string (moltbook_username a) then
        mret (ReplyError 400 "no_moltbook" "No Moltbook username linked")
      else
        let result := verifyMoltbook a fetched in
        if vr_verified result then
          update agentId (verified_updates (vr_karma result)) (now_verified env) ;;
          newScore ← query (fun db => calculateScore db agentId (now_rescore env));
          update agentId (only_trust_score newScore) (now_stored env) ;;
          updated ← getById agentId;
          mret (ReplyData 200
                  {| vd_verified := true;
                     vd_karma_imported := vr_karma result;
                     vd_trust_score := newScore;
                     vd_agent := toPublic <$> updated |})
        else
          mret (ReplyError 400 "verification_failed" (verification_failed_message a))
  end.

(** ** AgentService.search *)

Record SearchQuery := {
  q_verified : option bool;
  q_min_trust : option Z;
  q_capability : option string;
  q_limit : Z;
  q_offset : Z
}.

#[export] Instance Status_eq_dec : EqDecision Status.
Proof. solve_decision. Defined.

(** [ORDER BY trust_score DESC]: a row may precede another when its score
    is at least as high. *)
Definition by_trust_desc (a b : Agent) : Prop := trust_score b <= trust_score a.

#[export] Instance by_trust_desc_dec (a b : Agent) : Decision (by_trust_desc a b).
Proof. unfold by_trust_desc. apply _. Defined.

(** [LIMIT ? OFFSET ?] as SQLite reads them: a negative offset skips
    nothing and a negative limit is no limit. *)
Definition limit_offset {A : Type} (limit offset : Z) (rows : list A) : list A :=
  let rest := drop (Z.to_nat offset) rows in
  if limit <? 0 then rest else take (Z.to_nat limit) rest.

Section Search.

(** What the engine and the runtime contribute to the capability filter:
    [JSON.stringify] of the stored capability list, and [text LIKE pattern]. *)
Variable JSON_stringify : list string -> string.
Variable sql_like : string -> string -> bool.

(** The [WHERE] clause [search] builds. *)
Definition search_where (query : SearchQuery) (a : Agent) : bool :=
  bool_decide (status a = active)
  && match q_verified query with
     | None => true
     | Some v => bool_decide (moltbook_verified a = v)
     end
  && match q_min_trust query with
     | None => true
     | Some m => m <=? trust_score a
     end
  && match q_capability query with
     | None => true
     | Some c =>
         if bool_decide (c = EmptyString) then true
         else sql_like (JSON_stringify (capabilities a))
                ("%" +:+ dquote +:+ c +:+ dquote +:+ "%")
     end.

(** The selected rows in order, before they are made public.  Rows with
    equal scores come in the order the sort leaves them in; nothing below
    depends on it. *)
Definition search_rows (query : SearchQuery) (db : D1Database) : list Agent :=
  limit_offset (q_limit query) (q_offset query)
    (merge_sort by_trust_desc
       (List.filter (search_where query) (snd <$> map_to_list (agents db)))).

(** [AgentService.search] *)
Definition search (q : SearchQuery) : M (list AgentPublic) :=
  rows ← query (search_rows q);
  mret (toPublic <$> rows).

End Search.

(** ** The store as the endpoints leave it *)

(** The requests that write to the store. *)
Inductive Request :=
  | PostAgent (nanoid12 : string) (now : Z) (input : AgentCreateInput)
  | PostVerify (env : VerifyEnv) (agentId : string) (fetched : FetchOutcome)
  | PostVouch (env : Env) (toId from_agent_id : string).

Definition handle (r : Request) (db : D1Database) : D1Database :=
  match r with
  | PostAgent nanoid12 now input => snd (create_route nanoid12 now input db)
  | PostVerify env agentId fetched => snd (verify_route env agentId fetched db)
  | PostVouch env toId from_agent_id => snd (vouch_route env toId from_agent_id db)
  end.

(** The stores that a sequence of such requests produces from the empty
    tables. *)
Inductive reachable : D1Database -> Prop :=
  | reachable_empty (fk : bool) :
      reachable {| agents := ∅; vouches := []; foreign_keys := fk |}
  | reachable_handle (db : D1Database) (r : Request) :
      reachable db -> reachable (handle r db).

(** The vouch rows that point at an agent. *)
Definition incoming (db : D1Database) (agentId : string) : list Vouch :=
  List.filter (fun v => bool_decide (to_agent_id v = agentId)) (vouches db).

Record store_inv (db : D1Database) : Prop := {
  inv_ids : forall k a, agents db !! k = Some a -> id a = k;
  inv_codes : forall k a,
      agents db !! k = Some a -> verification_code a = Some ("moltid-verify:" +:+ k);
  inv_usernames : forall k1 k2 a1 a2 u,
      agents db !! k1 = Some a1 -> agents db !! k2 = Some a2 ->
      moltbook_username a1 = Some u -> moltbook_username a2 = Some u -> k1 = k2;
  inv_vouch_ids : NoDup (v_id <$> vouches db);
  inv_edges : NoDup (edges db);
  inv_no_self : forall v, v ∈ vouches db -> from_agent_id v <> to_agent_id v;
  inv_ends : forall v,
      v ∈ vouches db ->
      isVoucherVerified db (from_agent_id v) = true
      /\ is_Some (agents db !! to_agent_id v);
  inv_counter : forall k a,
      agents db !! k = Some a -> vouch_count a = Z.of_nat (length (incoming db k));
  inv_status : forall k a,
      agents db !! k = Some a ->
      if moltbook_verified a
      then status a = active /\ is_Some (moltbook_karma a)
      else status a = pending /\ moltbook_karma a = None;
  inv_score : forall k a, agents db !! k = Some a -> trust_score a <= 100
}.

(** The store a successful verification leaves: the row is marked verified
    and active with the imported karma, then the recomputed score is
    written to it. *)
Definition after_verified (env : VerifyEnv) (agentId : string) (karma : option Z)
    (db : D1Database) : D1Database :=
  with_agents (alter (set_fields (verified_updates karma) (now_verified env)) agentId) db.

Definition after_verify_route (env : VerifyEnv) (agentId : string) (karma : option Z)
    (db : D1Database) : D1Database :=
  let db1 := after_verified env agentId karma db in
  with_agents
    (alter (set_fields (only_trust_score (calculateScore db1 agentId (now_rescore env)))
              (now_stored env)) agentId)
    db1.

(** A profile answer for bob: 42 karma and one recent post that quotes bob's
    verification code. *)
Definition bob_profile : FetchOutcome :=
  FetchResponse true
    (Some {| md_success := true;
             md_karma := Some 42;
             md_recentPosts :=
               Some [ {| post_content := Some "hello world"; post_title := None |};
                      {| post_content := Some "my id: moltid-verify:mlt_bob, thanks";
                         post_title := Some "verification" |} ] |}).

Definition verify_env1 : VerifyEnv :=
  {| now_verified := t0 + 2 * MS_PER_DAY;
     now_rescore := t0 + 2 * MS_PER_DAY;
     now_stored := t0 + 2 * MS_PER_DAY |}.

(** A store built by four requests: two registrations, the verification of
    the first agent, and its vouch for the second. *)
Definition ann_input : AgentCreateInput :=
  {| in_moltbook_username := Some "ann"; in_public_key := None;
     in_capabilities := Some ["search"; "chat"] |}.

Definition ben_input : AgentCreateInput :=
  {| in_moltbook_username := None; in_public_key := None; in_capabilities := None |}.

Definition ann_profile : FetchOutcome :=
  FetchResponse true
    (Some {| md_success := true;
             md_karma := Some 1500;
             md_recentPosts :=
               Some [ {| post_content := None;
                         post_title := Some "moltid-verify:mlt_annannannann" |} ] |}).

Definition demo_requests : list Request :=
  [ PostAgent "annannannann" t0 ann_input;
    PostAgent "benbenbenben" (t0 + 1000) ben_input;
    PostVerify verify_env1 "mlt_annannannann" ann_profile;
    PostVouch env1 "mlt_benbenbenben" "mlt_annannannann" ].

Definition demo_db : D1Database :=
  handle (PostVouch env1 "mlt_benbenbenben" "mlt_annannannann")
    (handle (PostVerify verify_env1 "mlt_annannannann" ann_profile)
       (handle (PostAgent "benbenbenben" (t0 + 1000) ben_input)
          (handle (PostAgent "annannannann" t0 ann_input) empty_db))).

Definition demo_ben : Agent :=
  default bob (agents demo_db !! "mlt_benbenbenben").

Definition demo_ann : Agent :=
  default bob (agents demo_db !! "mlt_annannannann").

(** The same search with another window. *)
Definition page (q : SearchQuery) (offset limit : Z) : SearchQuery :=
  {| q_verified := q_verified q; q_min_trust := q_min_trust q;
     q_capability := q_capability q; q_limit := limit; q_offset := offset |}.

(** A listing of the verified agents, best score first, ten per page. *)
Definition verified_first_page : SearchQuery :=
  {| q_verified := Some true; q_min_trust := None; q_capability := None;
     q_limit := 10; q_offset := 0 |}.

(** The store of alice and bob after a direct [addVouch] in which bob, who
    is not verified, vouches for alice. *)
Definition db_unverified_vouch : D1Database :=
  snd (addVouch "k8Xq2LmPz0Ta" t0 "mlt_bob" "mlt_alice" db_pair).

Definition vouched_alice : Agent :=
  default alice (agents db_unverified_vouch !! "mlt_alice").

(** The store after two registrations and the verification of the first
    agent, and a vouch request handled three days after [t0]. *)
Definition db_registered : D1Database :=
  handle (PostVerify verify_env1 "mlt_annannannann" ann_profile)
    (handle (PostAgent "benbenbenben" (t0 + 1000) ben_input)
       (handle (PostAgent "annannannann" t0 ann_input) empty_db)).

Definition env3 : Env :=
  {| env_nanoid := "Zr4Wq9sT1vBn";
     now_addVouch := t0 + 3 * MS_PER_DAY;
     now_calculateScore := t0 + 3 * MS_PER_DAY;
     now_update := t0 + 3 * MS_PER_DAY |}.

(** * Properties of the trust score *)

Section Scoring.

Implicit Types (db : D1Database) (a : Agent) (now : Z).

Lemma moltbookFactor_range a : 0 <= moltbookFactor a <= MOLTBOOK_VERIFIED_POINTS.
Proof. unfold moltbookFactor, MOLTBOOK_VERIFIED_POINTS. destruct (moltbook_verified a); lia. Qed.

Lemma karmaFactor_le karma : karmaFactor karma <= KARMA_MAX_POINTS.
Proof. unfold karmaFactor. apply Z.le_min_r. Qed.

Lemma ageFactor_le now created : ageFactor now created <= AGE_MAX_POINTS.
Proof. unfold ageFactor. apply Z.le_min_r. Qed.

Lemma verifiedVouches_nonneg db agentId : 0 <= verifiedVouches db agentId.
Proof. unfold verifiedVouches. apply Nat2Z.is_nonneg. Qed.

Lemma vouchPoints_range n : 0 <= n -> 0 <= vouchPoints n <= VOUCH_MAX_POINTS.
Proof. unfold vouchPoints, VOUCH_POINTS_EACH, VOUCH_MAX_POINTS. lia. Qed.

(** The outer [Math.min(score, 100)] never binds: the score is the plain sum
    of the four contributions. *)
Lemma calculateScore_sum db agentId a now :
  agents db !! agentId = Some a ->
  calculateScore db agentId now
  = moltbookFactor a + karmaFactor (moltbook_karma a)
    + ageFactor now (created_at a) + vouchPoints (verifiedVouches db agentId).
Proof.
  intros Hrow. unfold calculateScore. rewrite Hrow. cbv zeta.
  pose proof (moltbookFactor_range a) as Hm.
  pose proof (karmaFactor_le (moltbook_karma a)) as Hk.
  pose proof (ageFactor_le now (created_at a)) as Ha.
  pose proof (vouchPoints_range _ (verifiedVouches_nonneg db agentId)) as Hv.
  unfold moltbookFactor, karmaFactor, ageFactor, vouchPoints in *.
  unfold MAX_TOTAL_SCORE, MOLTBOOK_VERIFIED_POINTS, KARMA_MAX_POINTS,
    AGE_MAX_POINTS, VOUCH_MAX_POINTS in *.
  destruct (moltbook_verified a); rewrite Z.min_l; lia.
Qed.

Lemma calculateScore_le_100 db agentId now : calculateScore db agentId now <= 100.
Proof.
  unfold calculateScore. destruct (agents db !! agentId); [|lia].
  cbv zeta. apply Z.le_min_r.
Qed.

Lemma ageDays_nonneg now created : created <= now -> 0 <= ageDays now created.
Proof. intros H. unfold ageDays, MS_PER_DAY. apply Z.div_pos; lia. Qed.

Lemma ageDays_future now created : now < created -> ageDays now created < 0.
Proof.
  intros H. unfold ageDays, MS_PER_DAY.
  apply Z.div_lt_upper_bound; lia.
Qed.

(** On its intended domain (a record created in the past, karma that is
    absent or not negative) the score is in range. *)
Lemma calculateScore_range_past db agentId a now :
  agents db !! agentId = Some a ->
  created_at a <= now ->
  0 <= or_zero (moltbook_karma a) ->
  0 <= calculateScore db agentId now <= 100.
Proof.
  intros Hrow Hpast Hkarma. split; [|apply calculateScore_le_100].
  rewrite (calculateScore_sum _ _ _ _ Hrow).
  pose proof (moltbookFactor_range a) as Hm.
  pose proof (vouchPoints_range _ (verifiedVouches_nonneg db agentId)) as Hv.
  pose proof (ageDays_nonneg _ _ Hpast) as Ha.
  assert (0 <= or_zero (moltbook_karma a) / KARMA_DIVISOR) as Hk
    by (apply Z.div_pos; [done | unfold KARMA_DIVISOR; lia]).
  unfold karmaFactor, ageFactor, KARMA_MAX_POINTS, AGE_MAX_POINTS. lia.
Qed.

End Scoring.

(** ** Absent agents *)

(** C10: for an id that is not the key of any agent row, the score
    computation returns the number 0; it neither throws nor yields an absent
    value. *)
Theorem calculateScore_unknown_agent (db : D1Database) (agentId : string) (now : Z) :
  agents db !! agentId = None ->
  calculateScore db agentId now = 0.
Proof. intros Hnone. unfold calculateScore. by rewrite Hnone. Qed.

Lemma calculateScore_unknown_agent_witness :
  agents empty_db !! "mlt_nonexistent" = None
  /\ calculateScore empty_db "mlt_nonexistent" t0 = 0.
Proof.
  split; [reflexivity|].
  apply (calculateScore_unknown_agent empty_db "mlt_nonexistent" t0). reflexivity.
Defined.

(** ** The age contribution *)

Lemma ageFactor_past_clamped (now created : Z) :
  created <= now -> ageFactor now created = spec_age_factor now created.
Proof.
  intros H. pose proof (ageDays_nonneg _ _ H) as Hd.
  unfold ageFactor, spec_age_factor, clamp, AGE_MAX_POINTS, ageDays in *. lia.
Qed.

Lemma ageFactor_future_negative (now created : Z) :
  now < created -> ageFactor now created < 0.
Proof.
  intros H. pose proof (ageDays_future _ _ H).
  unfold ageFactor, AGE_MAX_POINTS. lia.
Qed.

(** C1: the age contribution is only capped from above.  For a record whose
    [created_at] is one day after the clock read, the elapsed days floor to
    -1, both [getDetails] and [calculateScore] use -1 as the age
    contribution, and the score of the otherwise empty record drops from 0
    to -1; the clamp to [0, 20] would give 0. *)
Theorem age_factor_future_created_at :
  t0 < created_at future_agent
  /\ ageDays t0 (created_at future_agent) = -1
  /\ f_age (factors (getDetails future_agent t0)) = -1
  /\ spec_age_factor t0 (created_at future_agent) = 0
  /\ calculateScore db_future "mlt_future" t0 = -1
  /\ calculateScore db_future "mlt_future" (created_at future_agent) = 0.
Proof. repeat split; vm_compute; reflexivity. Qed.

(** ** The range of the total *)

(** C2: the total is capped at 100 but has no lower bound of its own.  The
    record created one day after the clock read, unverified, with no karma
    and no vouches, scores -1, outside [0, 100]. *)
Theorem calculateScore_below_zero :
  moltbook_verified future_agent = false
  /\ moltbook_karma future_agent = None
  /\ vouches db_future = []
  /\ calculateScore db_future "mlt_future" t0 = -1
  /\ ~ (0 <= calculateScore db_future "mlt_future" t0 <= 100).
Proof.
  repeat split; try reflexivity.
  intros [Hlo _]. vm_compute in Hlo. by apply Hlo.
Qed.

(** ** The karma contribution *)

Lemma karmaFactor_monotone (k1 k2 : Z) :
  k1 <= k2 -> karmaFactor (Some k1) <= karmaFactor (Some k2).
Proof.
  intros H. unfold karmaFactor, or_zero, KARMA_DIVISOR, KARMA_MAX_POINTS.
  apply Z.min_le_compat_r. apply Z.div_le_mono; lia.
Qed.

Lemma karmaFactor_nonneg_clamped (k : Z) :
  0 <= k -> karmaFactor (Some k) = spec_karma_factor (Some k).
Proof.
  intros H. assert (0 <= k / 100) by (apply Z.div_pos; lia).
  unfold karmaFactor, spec_karma_factor, clamp, or_zero, KARMA_DIVISOR,
    KARMA_MAX_POINTS. lia.
Qed.

Lemma karmaFactor_step (k : Z) :
  0 <= k -> k + 100 < 3100 -> karmaFactor (Some (k + 100)) = karmaFactor (Some k) + 1.
Proof.
  intros H0 H1. unfold karmaFactor, or_zero, KARMA_DIVISOR, KARMA_MAX_POINTS.
  replace (k + 100) with (k + 1 * 100) by lia.
  rewrite Z.div_add by lia.
  assert (k / 100 < 30) by (apply Z.div_lt_upper_bound; lia). lia.
Qed.

Lemma karmaFactor_flat (k : Z) : 3000 <= k -> karmaFactor (Some k) = 30.
Proof.
  intros H. unfold karmaFactor, or_zero, KARMA_DIVISOR, KARMA_MAX_POINTS.
  assert (30 <= k / 100) by (apply Z.div_le_lower_bound; lia). lia.
Qed.

Lemma karmaFactor_null : karmaFactor None = karmaFactor (Some 0) /\ karmaFactor None = 0.
Proof. split; reflexivity. Qed.

Lemma karmaFactor_examples :
  karmaFactor (Some 2500) = 25 /\ karmaFactor (Some 99) = 0
  /\ karmaFactor (Some 10000) = 30.
Proof. repeat split. Qed.

(** C8: the karma contribution is [min (floor (karma / 100), 30)], with no
    lower clamp.  For an imported karma of -2500 it is -25 where the clamp to
    [0, 30] gives 0, and the verified record holding it scores -5. *)
Theorem karma_factor_negative_karma :
  moltbook_karma downvoted_agent = Some (-2500)
  /\ karmaFactor (Some (-2500)) = -25
  /\ f_karma (factors (getDetails downvoted_agent t0)) = -25
  /\ spec_karma_factor (Some (-2500)) = 0
  /\ calculateScore db_downvoted "mlt_downvoted" t0 = -5.
Proof. repeat split; vm_compute; reflexivity. Qed.

(** ** The breakdown *)

(** C3, as stated, fails.  The record verified at [t0] stores the score 20
    computed then; five days later the breakdown reports that stored score
    next to factors that sum to 25.  And the vouch factor is read off the
    stored counter: after a vouch by the unverified bob, alice's breakdown
    shows 5 vouch points and sums to 40, while her score counts no
    qualifying vouch and is 35. *)
Lemma getDetails_stale_score :
  agents db_verified !! "mlt_verified" = Some stored_verified_agent
  /\ score (getDetails stored_verified_agent (t0 + 5 * MS_PER_DAY)) = 20
  /\ factors_sum (factors (getDetails stored_verified_agent (t0 + 5 * MS_PER_DAY))) = 25
  /\ factors_sum (factors (getDetails stored_verified_agent (t0 + 5 * MS_PER_DAY)))
     <> score (getDetails stored_verified_agent (t0 + 5 * MS_PER_DAY))
  /\ moltbook_verified bob = false
  /\ agents db_unverified_vouch !! "mlt_alice" = Some vouched_alice
  /\ vouch_count vouched_alice = 1
  /\ verifiedVouches db_unverified_vouch "mlt_alice" = 0
  /\ f_vouches (factors (getDetails vouched_alice t0)) = 5
  /\ factors_sum (factors (getDetails vouched_alice t0)) = 40
  /\ calculateScore db_unverified_vouch "mlt_alice" t0 = 35.
Proof. repeat split; vm_compute; congruence. Qed.

(** C3, amended: for an agent whose [created_at] is not after the clock
    read, whose karma is null or not negative, and whose stored counter
    [vouch_count] is its number of qualifying vouches, the four reported
    factors each equal their clamped contribution (20 or 0; [floor (karma /
    100)] clamped to [0, 30]; the elapsed days clamped to [0, 20]; 5 per
    qualifying vouch clamped to [0, 30]) and sum exactly to the score
    [calculateScore] returns at that clock read.  The reported score is the
    stored [trust_score], returned as it is. *)
Theorem getDetails_breakdown (db : D1Database) (a : Agent) (now : Z) :
  agents db !! id a = Some a ->
  created_at a <= now ->
  0 <= or_zero (moltbook_karma a) ->
  vouch_count a = verifiedVouches db (id a) ->
  let d := getDetails a now in
  score d = trust_score a
  /\ f_moltbook_verified (factors d) = (if moltbook_verified a then 20 else 0)
  /\ f_karma (factors d) = clamp 0 30 (or_zero (moltbook_karma a) / 100)
  /\ f_age (factors d) = clamp 0 20 ((now - created_at a) / MS_PER_DAY)
  /\ f_vouches (factors d) = clamp 0 30 (5 * verifiedVouches db (id a))
  /\ factors_sum (factors d) = calculateScore db (id a) now.
Proof.
  intros Hrow Hpast Hkarma Hcount d.
  split; [reflexivity|]. split; [reflexivity|]. split.
  { assert (0 <= or_zero (moltbook_karma a) / 100) by (apply Z.div_pos; lia).
    unfold d, getDetails, karmaFactor, clamp, KARMA_DIVISOR, KARMA_MAX_POINTS. cbn. lia. }
  split.
  { exact (ageFactor_past_clamped now (created_at a) Hpast). }
  split.
  { pose proof (verifiedVouches_nonneg db (id a)) as Hn.
    unfold d, getDetails, clamp, VOUCH_POINTS_EACH, VOUCH_MAX_POINTS. cbn.
    rewrite Hcount. lia. }
  rewrite (calculateScore_sum _ _ _ _ Hrow), <- Hcount. reflexivity.
Qed.

Lemma getDetails_breakdown_witness :
  agents db_verified !! id stored_verified_agent = Some stored_verified_agent
  /\ created_at stored_verified_agent <= t0 + 5 * MS_PER_DAY
  /\ 0 <= or_zero (moltbook_karma stored_verified_agent)
  /\ vouch_count stored_verified_agent = verifiedVouches db_verified (id stored_verified_agent)
  /\ f_age (factors (getDetails stored_verified_agent (t0 + 5 * MS_PER_DAY))) = 5
  /\ factors_sum (factors (getDetails stored_verified_agent (t0 + 5 * MS_PER_DAY)))
     = calculateScore db_verified (id stored_verified_agent) (t0 + 5 * MS_PER_DAY).
Proof.
  assert (created_at stored_verified_agent <= t0 + 5 * MS_PER_DAY) as Hpast
    by (vm_compute; discriminate).
  assert (0 <= or_zero (moltbook_karma stored_verified_agent)) as Hkarma
    by (vm_compute; discriminate).
  destruct (getDetails_breakdown db_verified stored_verified_agent (t0 + 5 * MS_PER_DAY)
              eq_refl Hpast Hkarma eq_refl) as (_ & _ & _ & Hage & _ & Hsum).
  split; [reflexivity|]. split; [exact Hpast|]. split; [exact Hkarma|].
  split; [reflexivity|]. split; [rewrite Hage; reflexivity|exact Hsum].
Defined.

(** * Properties of the vouch graph store *)

Section Store.

Implicit Types (db : D1Database) (env : Env).

Lemma unique_message_caught (columns : string) :
  includes (error_message (UniqueConstraint columns)) "UNIQUE constraint" = true.
Proof. reflexivity. Qed.

Lemma foreign_key_message_rethrown :
  includes (error_message ForeignKeyConstraint) "UNIQUE constraint" = false.
Proof. reflexivity. Qed.

Lemma addVouch_existing_pair db nanoid12 now fromId toId :
  has_edge db fromId toId = true ->
  exists columns,
    addVouch nanoid12 now fromId toId db = (Throw (UniqueConstraint columns), db).
Proof.
  intros Hedge. unfold addVouch, mbind, M_bind, insert_vouch. cbn.
  unfold has_edge in Hedge. rewrite Hedge.
  destruct (existsb (has_id _) (vouches db)); cbn; eauto.
Qed.

Lemma addVouch_inserts db nanoid12 now fromId toId :
  fresh_vouch_id db nanoid12 = true ->
  has_edge db fromId toId = false ->
  foreign_keys_ok db fromId toId = true ->
  addVouch nanoid12 now fromId toId db
  = (Ok tt, after_addVouch nanoid12 now fromId toId db).
Proof.
  unfold fresh_vouch_id, has_edge, foreign_keys_ok.
  intros Hid Hpair Hfk. apply negb_true_iff in Hid.
  unfold addVouch, mbind, M_bind, insert_vouch, references_agents. cbn.
  rewrite Hid, Hpair.
  destruct (foreign_keys db); cbn in *; [rewrite Hfk|]; reflexivity.
Qed.

Lemma has_edge_app db fromId toId v f :
  has_edge {| agents := f; vouches := vouches db ++ [v]; foreign_keys := foreign_keys db |}
    fromId toId
  = has_edge db fromId toId || is_pair fromId toId v.
Proof.
  unfold has_edge. cbn. rewrite existsb_app. cbn. by rewrite orb_false_r.
Qed.

Lemma is_pair_refl nanoid12 now fromId toId :
  is_pair fromId toId (vouch_row nanoid12 now fromId toId) = true.
Proof. unfold is_pair. cbn. by rewrite !bool_decide_eq_true_2. Qed.

End Store.

(** * The vouch endpoint *)

Section Endpoint.

Implicit Types (db : D1Database) (env : Env).

Lemma vouchSchema_nonempty (fromId : string) : fromId <> EmptyString -> vouchSchema fromId = true.
Proof. intros H. unfold vouchSchema. by rewrite bool_decide_eq_false_2. Qed.

Lemma not_verified_false db fromId :
  not_verified (agents db !! fromId) = false ->
  exists a, agents db !! fromId = Some a /\ moltbook_verified a = true.
Proof.
  unfold not_verified. destruct (agents db !! fromId) as [a|]; [|done].
  intros H. apply negb_false_iff in H. eauto.
Qed.

(** The request passes the four guards and the insertion succeeds. *)
Lemma vouch_route_success db env toId fromId :
  fromId <> EmptyString ->
  not_verified (agents db !! fromId) = false ->
  is_Some (agents db !! toId) ->
  fromId <> toId ->
  fresh_vouch_id db (env_nanoid env) = true ->
  has_edge db fromId toId = false ->
  vouch_route env toId fromId db
  = (Ok (JsonVouchAdded
           (calculateScore
              (after_addVouch (env_nanoid env) (now_addVouch env) fromId toId db)
              toId (now_calculateScore env))),
     after_vouch_route env toId fromId db).
Proof.
  intros Hne Hver [target Htarget] Hself Hfresh Hedge.
  destruct (not_verified_false _ _ Hver) as (voucher & Hvoucher & _).
  assert (foreign_keys_ok db fromId toId = true) as Hfk.
  { unfold foreign_keys_ok. rewrite Hvoucher, Htarget.
    rewrite !bool_decide_eq_true_2 by eauto. by rewrite orb_true_r. }
  unfold vouch_route. rewrite (vouchSchema_nonempty _ Hne). cbn [negb].
  unfold mbind, M_bind, getById, query, try_catch. rewrite Hver, Htarget.
  rewrite bool_decide_eq_false_2 by done.
  rewrite bool_decide_eq_false_2 by done.
  rewrite (addVouch_inserts _ _ _ _ _ Hfresh Hedge Hfk).
  reflexivity.
Qed.

(** The request passes the four guards and the edge is already there. *)
Lemma vouch_route_duplicate db env toId fromId :
  fromId <> EmptyString ->
  not_verified (agents db !! fromId) = false ->
  is_Some (agents db !! toId) ->
  fromId <> toId ->
  has_edge db fromId toId = true ->
  vouch_route env toId fromId db
  = (Ok (JsonError 409 "already_vouched" "Already vouched for this agent"), db).
Proof.
  intros Hne Hver [target Htarget] Hself Hedge.
  unfold vouch_route. rewrite (vouchSchema_nonempty _ Hne). cbn [negb].
  unfold mbind, M_bind, getById, query, try_catch. rewrite Hver, Htarget.
  rewrite bool_decide_eq_false_2 by done.
  rewrite bool_decide_eq_false_2 by done.
  destruct (addVouch_existing_pair db (env_nanoid env) (now_addVouch env) _ _ Hedge)
    as [columns ->].
  rewrite unique_message_caught. reflexivity.
Qed.

(** Whatever the request, the handler either leaves the store as it was or
    answers 200 after a vouch between two different agents. *)
Lemma vouch_route_cases db env toId fromId :
  (exists r, vouch_route env toId fromId db = (r, db)
             /\ forall s, r <> Ok (JsonVouchAdded s))
  \/ (fromId <> toId
      /\ not_verified (agents db !! fromId) = false
      /\ has_edge db fromId toId = false
      /\ vouch_route env toId fromId db
         = (Ok (JsonVouchAdded
                  (calculateScore
                     (after_addVouch (env_nanoid env) (now_addVouch env) fromId toId db)
                     toId (now_calculateScore env))),
            after_vouch_route env toId fromId db)).
Proof.
  unfold vouch_route.
  destruct (vouchSchema fromId) eqn:Hschema; cbn [negb];
    [|left; eexists; split; [reflexivity|done]].
  unfold mbind, M_bind, getById, query, try_catch.
  destruct (not_verified (agents db !! fromId)) eqn:Hver;
    [left; eexists; split; [reflexivity|done]|].
  destruct (agents db !! toId) as [target|] eqn:Htarget;
    [rewrite bool_decide_eq_false_2 by done
    |rewrite bool_decide_eq_true_2 by done; left; eexists; split; [reflexivity|done]].
  destruct (decide (fromId = toId)) as [->|Hself];
    [rewrite bool_decide_eq_true_2 by done; left; eexists; split; [reflexivity|done]
    |rewrite bool_decide_eq_false_2 by done].
  unfold addVouch, mbind, M_bind, insert_vouch. cbn.
  destruct (existsb (has_id _) (vouches db));
    [cbn; left; eexists; split; [reflexivity|done]|].
  destruct (existsb (is_pair _ _) (vouches db)) eqn:Hedge;
    [cbn; left; eexists; split; [reflexivity|done]|].
  destruct (foreign_keys db && negb (references_agents db _));
    [cbn; left; eexists; split; [reflexivity|done]|].
  right. repeat (split; [done|]). reflexivity.
Qed.

End Endpoint.

(** * What the score reads of the store *)

Section Views.

Implicit Types (db : D1Database).

Lemma alter_same_views (f : Agent -> Agent) (k : string) db :
  (forall a, score_view (f a) = score_view a) ->
  same_views db (with_agents (alter f k) db).
Proof.
  intros Hf k'. cbn. rewrite lookup_alter.
  case_decide as Hk; [subst k'|done].
  destruct (agents db !! k) as [a|]; cbn; [by rewrite Hf|done].
Qed.

Lemma same_views_trans db1 db2 db3 :
  same_views db1 db2 -> same_views db2 db3 -> same_views db1 db3.
Proof. intros H12 H23 k. by rewrite H23, H12. Qed.

Lemma joins_verified_views db db' (agentId : string) (v : Vouch) :
  same_views db db' -> joins_verified db' agentId v = joins_verified db agentId v.
Proof.
  intros Hviews. specialize (Hviews (from_agent_id v)). unfold joins_verified.
  destruct (agents db' !! from_agent_id v) as [a'|],
           (agents db !! from_agent_id v) as [a|]; cbn in Hviews; try done.
  unfold score_view in Hviews. injection Hviews as Hv _ _. by rewrite Hv.
Qed.

Lemma verifiedVouches_views db db' (agentId : string) :
  same_views db db' -> vouches db' = vouches db ->
  verifiedVouches db' agentId = verifiedVouches db agentId.
Proof.
  intros Hviews Hrows. unfold verifiedVouches. rewrite Hrows.
  do 2 f_equal. apply List.filter_ext. intros v. by apply joins_verified_views.
Qed.

Lemma calculateScore_views db db' (agentId : string) (now : Z) :
  same_views db db' -> vouches db' = vouches db ->
  calculateScore db' agentId now = calculateScore db agentId now.
Proof.
  intros Hviews Hrows. unfold calculateScore.
  rewrite (verifiedVouches_views _ _ agentId Hviews Hrows).
  specialize (Hviews agentId).
  destruct (agents db' !! agentId) as [a'|], (agents db !! agentId) as [a|];
    cbn in Hviews; try done.
  unfold score_view in Hviews. injection Hviews as Hv Hk Hc.
  by rewrite Hv, Hk, Hc.
Qed.

(** The code's count is the specification's count of qualifying vouches,
    taken against the current verification flags. *)
Lemma verifiedVouches_qualifying db (agentId : string) :
  verifiedVouches db agentId
  = qualifyingVouchCount (vouches db) agentId (isVoucherVerified db).
Proof.
  unfold verifiedVouches, qualifyingVouchCount. do 2 f_equal.
  apply List.filter_ext. intros v. unfold joins_verified, isVoucherVerified.
  destruct (agents db !! from_agent_id v); [done|by rewrite andb_false_r].
Qed.

Lemma verifiedVouches_after_addVouch db nanoid12 now fromId toId :
  isVoucherVerified db fromId = true ->
  verifiedVouches (after_addVouch nanoid12 now fromId toId db) toId
  = verifiedVouches db toId + 1.
Proof.
  intros Hver.
  assert (same_views db (with_agents (alter (bump_vouch_count now) toId) db)) as Hviews
    by (by apply alter_same_views).
  unfold verifiedVouches at 1. cbn [vouches after_addVouch].
  rewrite List.filter_app, length_app, Nat2Z.inj_add.
  rewrite (List.filter_ext _ (joins_verified db toId))
    by (intros v; exact (joins_verified_views _ _ toId v Hviews)).
  fold (verifiedVouches db toId). f_equal.
  cbn [List.filter].
  change (joins_verified (after_addVouch nanoid12 now fromId toId db) toId)
    with (joins_verified (with_agents (alter (bump_vouch_count now) toId) db) toId).
  rewrite (joins_verified_views _ _ toId _ Hviews).
  unfold joins_verified, isVoucherVerified in *. cbn.
  destruct (agents db !! fromId); [|done].
  by rewrite Hver, bool_decide_eq_true_2.
Qed.

End Views.

(** * The vouch graph invariants *)

(** C4: when the edge (A, B) is already in the store, [addVouch A B] throws
    the uniqueness violation that the endpoint reports as [already_vouched]
    (409), and the rejected call leaves the store as it was: the edge set
    and B's stored counter are unchanged.  No request for an existing edge
    is answered with success, and the request of a verified voucher for
    another, existing agent is answered 409. *)
Theorem addVouch_twice (db : D1Database) (env : Env) (A B : string) :
  has_edge db A B = true ->
  (exists e,
      addVouch (env_nanoid env) (now_addVouch env) A B db = (Throw e, db)
      /\ includes (error_message e) "UNIQUE constraint" = true)
  /\ edges (snd (addVouch (env_nanoid env) (now_addVouch env) A B db)) = edges db
  /\ counter (snd (addVouch (env_nanoid env) (now_addVouch env) A B db)) B = counter db B
  /\ (exists r, vouch_route env B A db = (r, db)
                /\ forall s, r <> Ok (JsonVouchAdded s))
  /\ (A <> EmptyString ->
      not_verified (agents db !! A) = false ->
      is_Some (agents db !! B) ->
      A <> B ->
      vouch_route env B A db
      = (Ok (JsonError 409 "already_vouched" "Already vouched for this agent"), db)).
Proof.
  intros Hedge.
  destruct (addVouch_existing_pair db (env_nanoid env) (now_addVouch env) A B Hedge)
    as [columns Hthrow].
  split; [|split; [|split; [|split]]].
  - exists (UniqueConstraint columns). split; [exact Hthrow|apply unique_message_caught].
  - by rewrite Hthrow.
  - by rewrite Hthrow.
  - destruct (vouch_route_cases db env B A) as [Hsame|(_ & _ & Hnone & _)];
      [exact Hsame|congruence].
  - intros HA Hver HB Hself. by apply vouch_route_duplicate.
Qed.

Lemma addVouch_twice_witness :
  has_edge db_vouched "mlt_alice" "mlt_bob" = true
  /\ counter db_vouched "mlt_bob" = Some 1
  /\ vouch_route env2 "mlt_bob" "mlt_alice" db_vouched
     = (Ok (JsonError 409 "already_vouched" "Already vouched for this agent"), db_vouched).
Proof.
  split; [reflexivity|]. split; [reflexivity|].
  destruct (addVouch_twice db_vouched env2 "mlt_alice" "mlt_bob" eq_refl)
    as (_ & _ & _ & _ & Hroute).
  apply Hroute; [done|reflexivity|by eexists|done].
Defined.

(** C5: a vouch request whose voucher is its own recipient is always
    rejected and leaves the store as it was: with 403 when the agent is
    missing or unverified, with 400 [invalid_vouch] when it is verified (and
    with the validator's 400 on an empty id).  More generally the endpoint
    never changes which self-loops the graph has, so it inserts none. *)
Theorem vouch_route_self (db : D1Database) (env : Env) :
  (forall A,
      vouch_route env A A db
      = (Ok (if negb (vouchSchema A) then JsonInvalidBody
             else if not_verified (agents db !! A)
                  then JsonError 403 "unauthorized" "Only verified agents can vouch"
                  else JsonError 400 "invalid_vouch" "Cannot vouch for yourself"),
         db))
  /\ (forall toId fromId X,
         has_edge (snd (vouch_route env toId fromId db)) X X = has_edge db X X).
Proof.
  split.
  - intros A. unfold vouch_route.
    destruct (vouchSchema A); cbn [negb]; [|reflexivity].
    unfold mbind, M_bind, getById, query.
    destruct (not_verified (agents db !! A)) eqn:Hver; [reflexivity|].
    destruct (not_verified_false _ _ Hver) as (a & -> & _).
    rewrite bool_decide_eq_false_2 by done.
    by rewrite bool_decide_eq_true_2.
  - intros toId fromId X.
    destruct (vouch_route_cases db env toId fromId)
      as [(r & -> & _)|(Hself & _ & _ & ->)]; [reflexivity|].
    cbn [snd]. unfold after_vouch_route, with_agents, after_addVouch.
    cbn [vouches foreign_keys]. rewrite has_edge_app.
    unfold is_pair, vouch_row. cbn.
    destruct (decide (fromId = X)) as [->|Hne].
    + rewrite (bool_decide_eq_false_2 (toId = X)) by congruence.
      by rewrite andb_false_r, orb_false_r.
    + rewrite (bool_decide_eq_false_2 (fromId = X)) by done.
      by rewrite orb_false_r.
Qed.

(** C9, as stated, fails where the engine enforces the foreign keys of
    [vouches]: for the pair (mlt_ghost, mlt_bob), which has no edge yet and
    whose voucher has no agent row, a direct [addVouch] inserts nothing,
    leaves bob's counter alone and throws the foreign key error. *)
Lemma addVouch_refuses_unknown_voucher :
  foreign_keys db_pair = true
  /\ agents db_pair !! "mlt_ghost" = None
  /\ has_edge db_pair "mlt_ghost" "mlt_bob" = false
  /\ addVouch "V1StGXR8_Z5j" t0 "mlt_ghost" "mlt_bob" db_pair
     = (Throw ForeignKeyConstraint, db_pair)
  /\ has_edge (snd (addVouch "V1StGXR8_Z5j" t0 "mlt_ghost" "mlt_bob" db_pair))
       "mlt_ghost" "mlt_bob" = false
  /\ counter (snd (addVouch "V1StGXR8_Z5j" t0 "mlt_ghost" "mlt_bob" db_pair)) "mlt_bob"
     = counter db_pair "mlt_bob".
Proof. repeat split. Qed.

(** C9, amended: [addVouch] itself looks at neither the identity of the two
    ends nor at the voucher's verification flag, and reads no agent row.
    For every pair, equal ends included, whose edge is not yet there, the
    call succeeds, appends the edge and adds exactly 1 to the stored counter
    of the recipient, subject only to the constraints of the table: the
    uniqueness of the pair, the primary key of the generated row id, and,
    where the engine enforces them, the foreign keys that want both ends to
    have an agent row.  Nothing in the store or the schema refuses a
    self-loop. *)
Theorem addVouch_unchecked (db : D1Database) (nanoid12 : string) (now : Z)
    (fromId toId : string) :
  fresh_vouch_id db nanoid12 = true ->
  has_edge db fromId toId = false ->
  foreign_keys_ok db fromId toId = true ->
  addVouch nanoid12 now fromId toId db
  = (Ok tt, after_addVouch nanoid12 now fromId toId db)
  /\ has_edge (after_addVouch nanoid12 now fromId toId db) fromId toId = true
  /\ edges (after_addVouch nanoid12 now fromId toId db) = edges db ++ [(fromId, toId)]
  /\ counter (after_addVouch nanoid12 now fromId toId db) toId
     = (fun c => c + 1) <$> counter db toId.
Proof.
  intros Hfresh Hedge Hfk. split; [by apply addVouch_inserts|].
  split; [|split].
  - unfold after_addVouch. rewrite has_edge_app, is_pair_refl. apply orb_true_r.
  - unfold edges, after_addVouch. cbn [vouches]. by rewrite fmap_app.
  - unfold counter, after_addVouch. cbn [agents].
    rewrite lookup_alter_eq. by destruct (agents db !! toId).
Qed.

(** The store accepts a self-vouch of an unverified agent. *)
Lemma addVouch_unchecked_witness :
  moltbook_verified bob = false
  /\ addVouch "V1StGXR8_Z5j" t0 "mlt_bob" "mlt_bob" db_pair
     = (Ok tt, after_addVouch "V1StGXR8_Z5j" t0 "mlt_bob" "mlt_bob" db_pair)
  /\ has_edge (after_addVouch "V1StGXR8_Z5j" t0 "mlt_bob" "mlt_bob" db_pair)
       "mlt_bob" "mlt_bob" = true
  /\ counter (after_addVouch "V1StGXR8_Z5j" t0 "mlt_bob" "mlt_bob" db_pair) "mlt_bob"
     = Some 1.
Proof.
  split; [reflexivity|].
  destruct (addVouch_unchecked db_pair "V1StGXR8_Z5j" t0 "mlt_bob" "mlt_bob"
              eq_refl eq_refl eq_refl) as (Hok & Hedge & _ & Hcount).
  split; [exact Hok|]. split; [exact Hedge|].
  rewrite Hcount. reflexivity.
Defined.

(** * The vouch contribution *)

Lemma filter_filter_length {A : Type} (f g : A -> bool) (l : list A) :
  length (List.filter f (List.filter g l))
  = length (List.filter (fun x => f x && g x) l).
Proof.
  induction l as [|x l IH]; [done|]. cbn.
  destruct (g x); cbn; destruct (f x); cbn; by rewrite IH.
Qed.

Lemma set_status_unfold (k : string) (s : Status) (t : Z) (db : D1Database) :
  set_status k s t db = with_agents (alter (set_fields (only_status s) t) k) db.
Proof. reflexivity. Qed.

(** C6: the vouch contribution to the score is [min (5 * n, 30)], where [n]
    is the number of incoming edges whose voucher is verified in the store
    the score is computed on.  Edges from unverified (or missing) vouchers
    add nothing: [n] is the count of incoming edges that remain once they
    are dropped.  The status of any agent, the vouchers included, has no
    effect on the result. *)
Theorem vouch_factor_qualifying (db : D1Database) (toId : string) (a : Agent) (now : Z) :
  agents db !! toId = Some a ->
  let n := qualifyingVouchCount (vouches db) toId (isVoucherVerified db) in
  calculateScore db toId now
  = moltbookFactor a + karmaFactor (moltbook_karma a) + ageFactor now (created_at a)
    + Z.min (5 * n) 30
  /\ n = qualifyingVouchCount
           (List.filter (fun v => isVoucherVerified db (from_agent_id v)) (vouches db))
           toId (fun _ => true)
  /\ (forall k s t, calculateScore (set_status k s t db) toId now
                    = calculateScore db toId now).
Proof.
  intros Hrow n. split; [|split].
  - rewrite (calculateScore_sum _ _ _ _ Hrow), verifiedVouches_qualifying.
    fold n. unfold vouchPoints, VOUCH_POINTS_EACH, VOUCH_MAX_POINTS.
    by rewrite (Z.mul_comm n 5).
  - unfold n, qualifyingVouchCount. f_equal.
    rewrite filter_filter_length. f_equal.
    apply List.filter_ext. intros v. by rewrite andb_true_r.
  - intros k s t. rewrite set_status_unfold.
    apply calculateScore_views; [|reflexivity].
    by apply alter_same_views.
Qed.

Lemma vouch_factor_qualifying_witness :
  agents db_vouched !! "mlt_bob" = Some stored_bob
  /\ qualifyingVouchCount (vouches db_vouched) "mlt_bob" (isVoucherVerified db_vouched) = 1
  /\ calculateScore db_vouched "mlt_bob" (t0 + MS_PER_DAY) = 0 + 0 + 1 + Z.min (5 * 1) 30
  /\ calculateScore (set_status "mlt_alice" suspended (t0 + MS_PER_DAY) db_vouched)
       "mlt_bob" (t0 + MS_PER_DAY) = 6.
Proof.
  destruct (vouch_factor_qualifying db_vouched "mlt_bob" stored_bob (t0 + MS_PER_DAY)
              eq_refl) as (Hscore & _ & Hstatus).
  split; [reflexivity|]. split; [reflexivity|]. split; [exact Hscore|].
  rewrite Hstatus. reflexivity.
Defined.

(** * Recomputation after a vouch *)

(** C7, as stated, fails for the score the recipient had before the vouch.
    In a store produced by two registrations and a verification, ben's
    stored score is 0 and his vouch contribution is 0; the vouch request
    handled three days after [t0] stores 7, not 0 + 5: the recomputation
    also picks up the two days of age accrued since the score was stored. *)
Lemma vouch_route_stale_previous_score :
  reachable db_registered
  /\ trust_score <$> agents db_registered !! "mlt_benbenbenben" = Some 0
  /\ vouchPoints (verifiedVouches db_registered "mlt_benbenbenben") = 0
  /\ fst (vouch_route env3 "mlt_benbenbenben" "mlt_annannannann" db_registered)
     = Ok (JsonVouchAdded 7)
  /\ trust_score <$>
       agents (snd (vouch_route env3 "mlt_benbenbenben" "mlt_annannannann" db_registered))
         !! "mlt_benbenbenben" = Some 7
  /\ 7 <> 0 + 5.
Proof.
  split.
  { unfold db_registered, empty_db. repeat apply reachable_handle.
    apply reachable_empty. }
  repeat split; vm_compute; congruence.
Qed.

(** C7, amended: a vouch request that succeeds (verified voucher, existing
    recipient, distinct ends, no such edge yet) answers with, and stores in
    the recipient's row, the score recomputed on the store that already
    holds the new edge.  With [S] the score [calculateScore] gives for the
    store before the request at the clock read of the recomputation (the
    stored [trust_score] may be older and lower) and [V] its vouch
    contribution, the stored score is [S] with [V] replaced by
    [min (V + 5, 30)]: it is [S + 5] while [V] is below the cap and [S]
    once [V] is 30. *)
Theorem vouch_route_rescan (db : D1Database) (env : Env) (toId fromId : string) :
  fromId <> EmptyString ->
  not_verified (agents db !! fromId) = false ->
  is_Some (agents db !! toId) ->
  fromId <> toId ->
  fresh_vouch_id db (env_nanoid env) = true ->
  has_edge db fromId toId = false ->
  let now := now_calculateScore env in
  let S := calculateScore db toId now in
  let V := vouchPoints (verifiedVouches db toId) in
  let db1 := after_addVouch (env_nanoid env) (now_addVouch env) fromId toId db in
  exists S',
    vouch_route env toId fromId db
    = (Ok (JsonVouchAdded S'), after_vouch_route env toId fromId db)
    /\ trust_score <$> agents (after_vouch_route env toId fromId db) !! toId = Some S'
    /\ has_edge db1 fromId toId = true
    /\ verifiedVouches db1 toId = verifiedVouches db toId + 1
    /\ S' = calculateScore db1 toId now
    /\ S' = S - V + Z.min (V + 5) 30
    /\ (V < 30 -> S' = S + 5)
    /\ (V = 30 -> S' = S).
Proof.
  intros Hne Hver [target Htarget] Hself Hfresh Hedge now S V db1.
  destruct (not_verified_false _ _ Hver) as (voucher & Hvoucher & Hflag).
  assert (isVoucherVerified db fromId = true) as Hqual
    by (unfold isVoucherVerified; by rewrite Hvoucher).
  pose proof (verifiedVouches_after_addVouch db (env_nanoid env) (now_addVouch env)
                fromId toId Hqual) as Hcount.
  fold db1 in Hcount.
  assert (agents db1 !! toId = Some (bump_vouch_count (now_addVouch env) target)) as Hrow1.
  { unfold db1, after_addVouch. cbn [agents]. by rewrite lookup_alter_eq, Htarget. }
  assert (calculateScore db1 toId now = S - V + Z.min (V + 5) 30) as Hscore.
  { rewrite (calculateScore_sum _ _ _ _ Hrow1), Hcount.
    unfold S. rewrite (calculateScore_sum _ _ _ _ Htarget). fold V.
    change (moltbookFactor (bump_vouch_count (now_addVouch env) target))
      with (moltbookFactor target).
    cbn [moltbook_karma created_at bump_vouch_count].
    pose proof (verifiedVouches_nonneg db toId) as Hn.
    unfold V, vouchPoints, VOUCH_POINTS_EACH, VOUCH_MAX_POINTS. lia. }
  exists (calculateScore db1 toId now). split; [|split; [|split; [|split; [|split]]]].
  - by apply vouch_route_success.
  - unfold after_vouch_route. fold db1 now. cbn [agents with_agents].
    by rewrite lookup_alter_eq, Hrow1.
  - unfold db1, after_addVouch. rewrite has_edge_app, is_pair_refl. apply orb_true_r.
  - exact Hcount.
  - reflexivity.
  - split; [exact Hscore|]. rewrite Hscore.
    pose proof (verifiedVouches_nonneg db toId) as Hn.
    unfold V, vouchPoints, VOUCH_POINTS_EACH, VOUCH_MAX_POINTS. lia.
Qed.

Lemma vouch_route_rescan_witness :
  calculateScore db_pair "mlt_bob" (t0 + MS_PER_DAY) = 1
  /\ vouch_route env1 "mlt_bob" "mlt_alice" db_pair = (Ok (JsonVouchAdded 6), db_vouched)
  /\ trust_score <$> agents db_vouched !! "mlt_bob" = Some 6.
Proof.
  destruct (vouch_route_rescan db_pair env1 "mlt_bob" "mlt_alice")
    as (S' & Hroute & Hstored & _ & _ & _ & _ & Hplus & _);
    [done|reflexivity|by eexists|done|reflexivity|reflexivity|].
  assert (S' = 6) as -> by (apply Hplus; reflexivity).
  split; [reflexivity|]. split; [exact Hroute|exact Hstored].
Defined.

(** * Further properties of the trust service *)

(** X1: for an existing agent the four contributions never add up to more
    than 100, so the final [Math.min(score, 100)] changes nothing and the
    score is exactly their sum. *)
Theorem outer_cap_never_binds (db : D1Database) (agentId : string) (a : Agent) (now : Z) :
  agents db !! agentId = Some a ->
  let total :=
    moltbookFactor a + karmaFactor (moltbook_karma a) + ageFactor now (created_at a)
    + vouchPoints (verifiedVouches db agentId) in
  total <= 100 /\ calculateScore db agentId now = total.
Proof.
  intros Hrow total. split; [|by apply calculateScore_sum].
  unfold total. rewrite <- (calculateScore_sum _ _ _ _ Hrow).
  apply calculateScore_le_100.
Qed.

Lemma outer_cap_never_binds_witness :
  agents db_vouched !! "mlt_bob" = Some stored_bob
  /\ calculateScore db_vouched "mlt_bob" (t0 + 50 * MS_PER_DAY) = 0 + 0 + 20 + 5.
Proof.
  split; [reflexivity|].
  apply (outer_cap_never_binds db_vouched "mlt_bob" stored_bob (t0 + 50 * MS_PER_DAY)).
  reflexivity.
Defined.

(** X2: when the agent's [created_at] is not after the clock read and its
    karma is null or not negative, the score lies in [0, 100]. *)
Theorem score_in_range (db : D1Database) (agentId : string) (a : Agent) (now : Z) :
  agents db !! agentId = Some a ->
  created_at a <= now ->
  0 <= or_zero (moltbook_karma a) ->
  0 <= calculateScore db agentId now <= 100.
Proof. apply calculateScore_range_past. Qed.

Lemma score_in_range_witness :
  0 <= calculateScore db_pair "mlt_alice" (t0 + 3 * MS_PER_DAY) <= 100.
Proof.
  apply (score_in_range db_pair "mlt_alice" alice (t0 + 3 * MS_PER_DAY));
    [reflexivity|vm_compute; discriminate|vm_compute; discriminate].
Defined.

Lemma calculateScore_unknown_agent_eq (db : D1Database) (agentId : string) (now : Z) :
  agents db !! agentId = None -> calculateScore db agentId now = 0.
Proof. intros H. unfold calculateScore. by rewrite H. Qed.

Lemma ageDays_monotone (now1 now2 created : Z) :
  now1 <= now2 -> ageDays now1 created <= ageDays now2 created.
Proof. intros H. unfold ageDays, MS_PER_DAY. apply Z.div_le_mono; lia. Qed.

(** X3: the score of an agent never decreases as the clock advances: on an
    unchanged store, a later clock read gives a score at least as high. *)
Theorem score_monotone_in_time (db : D1Database) (agentId : string) (now1 now2 : Z) :
  now1 <= now2 ->
  calculateScore db agentId now1 <= calculateScore db agentId now2.
Proof.
  intros Hle. destruct (agents db !! agentId) as [a|] eqn:Hrow.
  - rewrite !(calculateScore_sum _ _ _ _ Hrow).
    pose proof (ageDays_monotone _ _ (created_at a) Hle).
    unfold ageFactor. lia.
  - by rewrite !(calculateScore_unknown_agent_eq _ _ _ Hrow).
Qed.

Lemma score_monotone_in_time_witness :
  calculateScore db_pair "mlt_alice" t0
  <= calculateScore db_pair "mlt_alice" (t0 + 3 * MS_PER_DAY).
Proof.
  apply (score_monotone_in_time db_pair "mlt_alice" t0 (t0 + 3 * MS_PER_DAY)).
  vm_compute. discriminate.
Defined.

(** X4: the age contribution counts full days.  It is 0 during the first
    day after [created_at], every further full day adds exactly one point
    up to the cap ([min (previous + 1, 20)]), and from twenty days on it
    is 20. *)
Theorem age_factor_steps (now created : Z) :
  (created <= now < created + MS_PER_DAY -> ageFactor now created = 0)
  /\ ageFactor (now + MS_PER_DAY) created = Z.min (ageFactor now created + 1) 20
  /\ (created + 20 * MS_PER_DAY <= now -> ageFactor now created = 20).
Proof.
  unfold ageFactor, ageDays, AGE_MAX_POINTS. split; [|split].
  - intros [Hlo Hhi]. rewrite Z.div_small; [done|lia].
  - replace (now + MS_PER_DAY - created) with (now - created + 1 * MS_PER_DAY) by lia.
    rewrite Z.div_add by (unfold MS_PER_DAY; lia). lia.
  - intros H. assert (20 <= (now - created) / MS_PER_DAY)
      by (apply Z.div_le_lower_bound; unfold MS_PER_DAY in *; lia).
    lia.
Qed.

Lemma age_factor_steps_witness :
  ageFactor (t0 + 1000) t0 = 0
  /\ ageFactor (t0 + 5 * MS_PER_DAY + MS_PER_DAY) t0 = Z.min (5 + 1) 20
  /\ ageFactor (t0 + 100 * MS_PER_DAY) t0 = 20.
Proof.
  destruct (age_factor_steps (t0 + 1000) t0) as (Hfirst & _ & _).
  destruct (age_factor_steps (t0 + 5 * MS_PER_DAY) t0) as (_ & Hstep & _).
  destruct (age_factor_steps (t0 + 100 * MS_PER_DAY) t0) as (_ & _ & Hcap).
  split; [apply Hfirst; vm_compute; split; [discriminate|reflexivity]|].
  split; [exact Hstep|apply Hcap; vm_compute; discriminate].
Defined.

(** X5: the karma contribution never decreases when karma grows (over all
    integers), counts null karma like karma 0, and for karma that is not
    negative it is [floor (karma / 100)] clamped to [0, 30]: one more point
    per 100 karma below 3000, and 30 from 3000 on. *)
Theorem karma_factor_profile :
  (forall k1 k2, k1 <= k2 -> karmaFactor (Some k1) <= karmaFactor (Some k2))
  /\ karmaFactor None = karmaFactor (Some 0)
  /\ (forall k, 0 <= k -> karmaFactor (Some k) = spec_karma_factor (Some k))
  /\ (forall k, 0 <= k < 3000 -> karmaFactor (Some (k + 100)) = karmaFactor (Some k) + 1)
  /\ (forall k, 3000 <= k -> karmaFactor (Some k) = 30).
Proof.
  unfold karmaFactor, spec_karma_factor, clamp, or_zero, KARMA_DIVISOR, KARMA_MAX_POINTS.
  split; [|split; [|split; [|split]]].
  - intros k1 k2 H. apply Z.min_le_compat_r. apply Z.div_le_mono; lia.
  - reflexivity.
  - intros k H. assert (0 <= k / 100) by (apply Z.div_pos; lia). lia.
  - intros k [H0 H1]. replace (k + 100) with (k + 1 * 100) by lia.
    rewrite Z.div_add by lia.
    assert (k / 100 < 30) by (apply Z.div_lt_upper_bound; lia). lia.
  - intros k H. assert (30 <= k / 100) by (apply Z.div_le_lower_bound; lia). lia.
Qed.

Lemma karma_factor_profile_witness :
  karmaFactor (Some 1499) <= karmaFactor (Some 1500)
  /\ karmaFactor (Some 1500) = spec_karma_factor (Some 1500)
  /\ karmaFactor (Some (1450 + 100)) = karmaFactor (Some 1450) + 1
  /\ karmaFactor (Some 123456) = 30.
Proof.
  destruct karma_factor_profile as (Hmono & _ & Hclamp & Hstep & Hflat).
  split; [apply Hmono; vm_compute; discriminate|].
  split; [apply Hclamp; vm_compute; discriminate|].
  split; [apply Hstep; vm_compute; split; [discriminate|reflexivity]|].
  apply Hflat; vm_compute; discriminate.
Defined.

(** * Further properties of the agent service *)

Section AgentServiceFacts.

Implicit Types (db : D1Database) (u : AgentUpdates).

Lemma update_writes db agentId u now :
  nothing_to_update u = false ->
  update agentId u now db
  = (Ok tt, with_agents (alter (set_fields u now) agentId) db).
Proof. intros H. unfold update. by rewrite H. Qed.

Lemma alter_missing (f : Agent -> Agent) (k : string) (m : gmap string Agent) :
  m !! k = None -> alter f k m = m.
Proof.
  intros H. apply map_eq. intros k'. rewrite lookup_alter.
  case_decide; [subst; by rewrite H|done].
Qed.

Lemma with_agents_same db (f : gmap string Agent -> gmap string Agent) :
  f (agents db) = agents db -> with_agents f db = db.
Proof. intros H. destruct db. unfold with_agents. cbn in *. by rewrite H. Qed.

End AgentServiceFacts.

(** X6: [update] with no recognised field is a complete no-op (not even
    [updated_at] is written), and [update] of an id that has no row
    succeeds silently and leaves the store as it was. *)
Theorem update_noops (db : D1Database) (agentId : string) (u : AgentUpdates) (now : Z) :
  (nothing_to_update u = true -> update agentId u now db = (Ok tt, db))
  /\ (agents db !! agentId = None -> update agentId u now db = (Ok tt, db)).
Proof.
  split.
  - intros H. unfold update. by rewrite H.
  - intros Hnone. unfold update. destruct (nothing_to_update u); [done|].
    unfold exec. f_equal. apply with_agents_same. by apply alter_missing.
Qed.

Lemma update_noops_witness :
  update "mlt_alice" no_updates (t0 + 5) db_pair = (Ok tt, db_pair)
  /\ update "mlt_nobody" (only_trust_score 99) (t0 + 5) db_pair = (Ok tt, db_pair).
Proof.
  split.
  - destruct (update_noops db_pair "mlt_alice" no_updates (t0 + 5)) as [Hempty _].
    apply Hempty. reflexivity.
  - destruct (update_noops db_pair "mlt_nobody" (only_trust_score 99) (t0 + 5))
      as [_ Hmissing].
    apply Hmissing. reflexivity.
Defined.

(** X7: an [update] that sets at least one field rewrites one row only.
    Read back with [getById], the row has the new value in every field that
    was given and the old value in every other one, a fresh [updated_at],
    and the same id, username, verification code and [created_at]; every
    other row and the vouch table are untouched. *)
Theorem update_then_getById (db : D1Database) (agentId : string) (a : Agent)
    (u : AgentUpdates) (now : Z) :
  agents db !! agentId = Some a ->
  nothing_to_update u = false ->
  exists db' a',
    update agentId u now db = (Ok tt, db')
    /\ getById agentId db' = (Ok (Some a'), db')
    /\ moltbook_verified a' = default (moltbook_verified a) (u_moltbook_verified u)
    /\ moltbook_karma a' = default (moltbook_karma a) (u_moltbook_karma u)
    /\ trust_score a' = default (trust_score a) (u_trust_score u)
    /\ vouch_count a' = default (vouch_count a) (u_vouch_count u)
    /\ status a' = default (status a) (u_status u)
    /\ capabilities a' = default (capabilities a) (u_capabilities u)
    /\ public_key a' = default (public_key a) (u_public_key u)
    /\ updated_at a' = now
    /\ (id a', moltbook_username a', verification_code a', created_at a')
       = (id a, moltbook_username a, verification_code a, created_at a)
    /\ (forall k, k <> agentId -> agents db' !! k = agents db !! k)
    /\ vouches db' = vouches db.
Proof.
  intros Hrow Hsome.
  exists (with_agents (alter (set_fields u now) agentId) db), (set_fields u now a).
  split; [by apply update_writes|].
  split.
  { unfold getById, query. cbn. by rewrite lookup_alter_eq, Hrow. }
  repeat (split; [reflexivity|]).
  split; [|reflexivity].
  intros k Hk. cbn. by rewrite lookup_alter_ne.
Qed.

Lemma update_then_getById_witness :
  exists db' a',
    update "mlt_bob" (only_status suspended) (t0 + 7) db_pair = (Ok tt, db')
    /\ getById "mlt_bob" db' = (Ok (Some a'), db')
    /\ status a' = suspended
    /\ trust_score a' = trust_score bob
    /\ updated_at a' = t0 + 7
    /\ agents db' !! "mlt_alice" = Some alice.
Proof.
  destruct (update_then_getById db_pair "mlt_bob" bob (only_status suspended) (t0 + 7)
              eq_refl eq_refl)
    as (db' & a' & Hupd & Hget & _ & _ & Hscore & _ & Hstatus & _ & _ & Hat & _ & Hframe & _).
  exists db', a'. split; [exact Hupd|]. split; [exact Hget|].
  split; [exact Hstatus|]. split; [exact Hscore|]. split; [exact Hat|].
  rewrite Hframe; [reflexivity|discriminate].
Defined.

(** X8: after a successful [addVouch], [getVouches] of the recipient returns
    the vouchers it returned before followed by the new voucher, and
    [getVouches] of every other agent returns what it returned before. *)
Theorem addVouch_getVouches (db : D1Database) (nanoid12 : string) (now : Z)
    (fromId toId : string) :
  fresh_vouch_id db nanoid12 = true ->
  has_edge db fromId toId = false ->
  foreign_keys_ok db fromId toId = true ->
  exists db' old,
    addVouch nanoid12 now fromId toId db = (Ok tt, db')
    /\ getVouches toId db = (Ok old, db)
    /\ getVouches toId db' = (Ok (old ++ [fromId]), db')
    /\ (forall k, k <> toId -> fst (getVouches k db') = fst (getVouches k db)).
Proof.
  intros Hfresh Hedge Hfk.
  exists (after_addVouch nanoid12 now fromId toId db),
         (from_agent_id <$>
            List.filter (fun v => bool_decide (to_agent_id v = toId)) (vouches db)).
  split; [by apply addVouch_inserts|]. split; [reflexivity|].
  unfold getVouches, query, after_addVouch. cbn [vouches fst].
  split.
  - rewrite List.filter_app, fmap_app. cbn.
    by rewrite bool_decide_eq_true_2.
  - intros k Hk. rewrite List.filter_app. cbn.
    rewrite bool_decide_eq_false_2 by congruence. by rewrite app_nil_r.
Qed.

Lemma addVouch_getVouches_witness :
  exists db',
    addVouch "V1StGXR8_Z5j" t0 "mlt_alice" "mlt_bob" db_pair = (Ok tt, db')
    /\ getVouches "mlt_bob" db' = (Ok ["mlt_alice"], db')
    /\ fst (getVouches "mlt_alice" db') = Ok [].
Proof.
  destruct (addVouch_getVouches db_pair "V1StGXR8_Z5j" t0 "mlt_alice" "mlt_bob"
              eq_refl eq_refl eq_refl) as (db' & old & Hadd & Hold & Hnew & Hother).
  exists db'. split; [exact Hadd|].
  injection Hold as <-.
  split; [exact Hnew|]. rewrite Hother; [reflexivity|discriminate].
Defined.

(** X9: where the engine enforces the foreign keys of [vouches], an
    [addVouch] whose voucher or recipient has no agent row throws the
    foreign key error and writes nothing; that error's message does not
    contain [UNIQUE constraint], so a handler that catches duplicates
    rethrows it. *)
Theorem addVouch_missing_agent (db : D1Database) (nanoid12 : string) (now : Z)
    (fromId toId : string) :
  foreign_keys db = true ->
  fresh_vouch_id db nanoid12 = true ->
  has_edge db fromId toId = false ->
  agents db !! fromId = None \/ agents db !! toId = None ->
  addVouch nanoid12 now fromId toId db = (Throw ForeignKeyConstraint, db)
  /\ includes (error_message ForeignKeyConstraint) "UNIQUE constraint" = false.
Proof.
  unfold fresh_vouch_id, has_edge. intros Hfk Hid Hedge Hmissing.
  apply negb_true_iff in Hid. split; [|reflexivity].
  unfold addVouch, mbind, M_bind, insert_vouch, references_agents. cbn.
  rewrite Hid, Hedge, Hfk. cbn.
  destruct Hmissing as [H|H]; rewrite H.
  - rewrite (bool_decide_eq_false_2 (is_Some None)) by (by intros [? ?]). reflexivity.
  - rewrite (bool_decide_eq_false_2 (is_Some None)) by (by intros [? ?]).
    rewrite andb_false_r. reflexivity.
Qed.

Lemma addVouch_missing_agent_witness :
  addVouch "V1StGXR8_Z5j" t0 "mlt_ghost" "mlt_bob" db_pair
  = (Throw ForeignKeyConstraint, db_pair).
Proof.
  destruct (addVouch_missing_agent db_pair "V1StGXR8_Z5j" t0 "mlt_ghost" "mlt_bob")
    as [Hthrow _]; [reflexivity|reflexivity|reflexivity|left; reflexivity|].
  exact Hthrow.
Defined.

(** ** Registration *)

Section Registration.

Implicit Types (db : D1Database) (input : AgentCreateInput).

Lemma username_taken_false db (username : option string) :
  username_taken db username = false ->
  forall k a u, agents db !! k = Some a -> username = Some u ->
                moltbook_username a <> Some u.
Proof.
  intros Hfree k a u Hrow -> Hname. unfold username_taken in Hfree.
  apply bool_decide_eq_false in Hfree. apply Hfree.
  apply map_Exists_lookup. eauto.
Qed.

Lemma username_taken_true db (username : option string) :
  username_taken db username = true ->
  exists k a u, agents db !! k = Some a /\ username = Some u
                /\ moltbook_username a = Some u.
Proof.
  unfold username_taken. destruct username as [u|]; [|done].
  intros H. apply bool_decide_eq_true in H. apply map_Exists_lookup in H.
  destruct H as (k & a & Hrow & Hname). eauto 10.
Qed.

Lemma row_in_scan db (k : string) (a : Agent) :
  agents db !! k = Some a -> a ∈ (snd <$> map_to_list (agents db)).
Proof.
  intros H. apply list_elem_of_fmap. exists (k, a). split; [done|].
  by apply elem_of_map_to_list.
Qed.

Lemma scan_in_table db (a : Agent) :
  a ∈ (snd <$> map_to_list (agents db)) -> exists k, agents db !! k = Some a.
Proof.
  intros H. apply list_elem_of_fmap in H. destruct H as ([k b] & -> & Hin).
  exists k. by apply elem_of_map_to_list.
Qed.

(** The lookup by username finds a row with that name exactly when there is
    one. *)
Lemma getByMoltbook_found db (username : string) (a : Agent) :
  fst (getByMoltbook username db) = Ok (Some a) ->
  (exists k, agents db !! k = Some a) /\ moltbook_username a = Some username.
Proof.
  unfold getByMoltbook, query. cbn. intros H. injection H as H.
  apply head_Some_elem_of, list_elem_of_In, List.filter_In in H.
  destruct H as [Hin Hname]. apply bool_decide_eq_true in Hname.
  split; [|done]. apply scan_in_table. by apply list_elem_of_In.
Qed.

Lemma getByMoltbook_none db (username : string) :
  fst (getByMoltbook username db) = Ok None ->
  forall k a, agents db !! k = Some a -> moltbook_username a <> Some username.
Proof.
  unfold getByMoltbook, query. cbn. intros H k a Hrow Hname. injection H as H.
  apply head_None in H.
  assert (In a (List.filter
                  (fun a => bool_decide (moltbook_username a = Some username))
                  (snd <$> map_to_list (agents db)))) as Hin.
  { apply List.filter_In. split; [apply list_elem_of_In; by eapply row_in_scan|].
    by apply bool_decide_eq_true. }
  rewrite H in Hin. destruct Hin.
Qed.

Lemma getByMoltbook_only db (username : string) (k : string) (a : Agent) :
  agents db !! k = Some a ->
  moltbook_username a = Some username ->
  (forall k' a', agents db !! k' = Some a' ->
                 moltbook_username a' = Some username -> a' = a) ->
  getByMoltbook username db = (Ok (Some a), db).
Proof.
  intros Hrow Hname Honly.
  destruct (getByMoltbook username db) as [r db'] eqn:Hget.
  assert (db' = db) as -> by (unfold getByMoltbook, query in Hget; congruence).
  assert (fst (getByMoltbook username db) = r) as Hfst by (by rewrite Hget).
  unfold getByMoltbook, query in Hget. injection Hget as Hr.
  destruct (head _) as [b|] eqn:Hhead in Hr; subst r.
  - destruct (getByMoltbook_found db username b Hfst) as [[k' Hrow'] Hname'].
    by rewrite (Honly k' b Hrow' Hname').
  - by destruct (getByMoltbook_none db username Hfst k a Hrow).
Qed.

End Registration.

Lemma create_inserts (db : D1Database) (nanoid12 : string) (now : Z)
    (input : AgentCreateInput) :
  agents db !! ("mlt_" +:+ nanoid12) = None ->
  username_taken db (or_null (in_moltbook_username input)) = false ->
  create nanoid12 now input db
  = (Ok (Some (new_agent_row ("mlt_" +:+ nanoid12) input now)),
     with_agents (insert ("mlt_" +:+ nanoid12)
                    (new_agent_row ("mlt_" +:+ nanoid12) input now)) db).
Proof.
  intros Hfresh Hfree. unfold create, mbind, M_bind, insert_agent, getById, query.
  cbn [id moltbook_username new_agent_row]. rewrite Hfresh, Hfree.
  rewrite bool_decide_eq_false_2 by (by intros [? ?]).
  cbn. by rewrite lookup_insert_eq.
Qed.

(** X10: [create] with an id that is not taken and a username that is null
    or not held by any row stores and returns a row that is unverified,
    pending, without karma, with score 0 and counter 0, and whose
    verification code is [moltid-verify:] followed by its id.  [getById]
    finds it, [getByMoltbook] finds it by its username if it has one, and
    no other row or vouch changes. *)
Theorem create_registers (db : D1Database) (nanoid12 : string) (now : Z)
    (input : AgentCreateInput) :
  agents db !! ("mlt_" +:+ nanoid12) = None ->
  username_taken db (or_null (in_moltbook_username input)) = false ->
  exists db' a,
    create nanoid12 now input db = (Ok (Some a), db')
    /\ getById ("mlt_" +:+ nanoid12) db' = (Ok (Some a), db')
    /\ id a = "mlt_" +:+ nanoid12
    /\ moltbook_username a = or_null (in_moltbook_username input)
    /\ moltbook_verified a = false
    /\ moltbook_karma a = None
    /\ trust_score a = 0
    /\ vouch_count a = 0
    /\ status a = pending
    /\ verification_code a = Some ("moltid-verify:mlt_" +:+ nanoid12)
    /\ (forall u, moltbook_username a = Some u ->
                  getByMoltbook u db' = (Ok (Some a), db'))
    /\ (forall k, k <> "mlt_" +:+ nanoid12 -> agents db' !! k = agents db !! k)
    /\ vouches db' = vouches db.
Proof.
  intros Hfresh Hfree. eexists _, _.
  split; [by apply create_inserts|].
  split; [unfold getById, query; cbn; by rewrite lookup_insert_eq|].
  repeat (split; [reflexivity|]).
  split; [|split; [|reflexivity]].
  - intros u Hu. apply (getByMoltbook_only _ u ("mlt_" +:+ nanoid12)).
    + cbn. by rewrite lookup_insert_eq.
    + exact Hu.
    + intros k' a' Hrow' Hname'. cbn in Hrow'.
      rewrite lookup_insert in Hrow'. case_decide as Hk; [congruence|].
      cbn in Hu.
      by destruct (username_taken_false db _ Hfree k' a' u Hrow' Hu).
  - intros k Hk. cbn. by rewrite lookup_insert_ne.
Qed.

(** A registration of the username [carol] into the store of alice and bob. *)
Lemma create_registers_witness :
  exists db' a,
    create "Uakgb_J5m9g-" (t0 + 9) {| in_moltbook_username := Some "carol";
                                     in_public_key := None;
                                     in_capabilities := Some ["search"] |} db_pair
    = (Ok (Some a), db')
    /\ status a = pending
    /\ verification_code a = Some "moltid-verify:mlt_Uakgb_J5m9g-"
    /\ getByMoltbook "carol" db' = (Ok (Some a), db')
    /\ agents db' !! "mlt_alice" = Some alice.
Proof.
  destruct (create_registers db_pair "Uakgb_J5m9g-" (t0 + 9)
              {| in_moltbook_username := Some "carol"; in_public_key := None;
                 in_capabilities := Some ["search"] |} eq_refl eq_refl)
    as (db' & a & Hcreate & _ & _ & Hname & _ & _ & _ & _ & Hstatus & Hcode & Hfind
        & Hframe & _).
  exists db', a. split; [exact Hcreate|]. split; [exact Hstatus|].
  split; [exact Hcode|]. split; [apply Hfind; exact Hname|].
  rewrite Hframe; [reflexivity|discriminate].
Defined.

(** A registration that collides with a stored id or username. *)
Lemma create_collides (db : D1Database) (nanoid12 : string) (now : Z)
    (input : AgentCreateInput) :
  is_Some (agents db !! ("mlt_" +:+ nanoid12))
  \/ username_taken db (or_null (in_moltbook_username input)) = true ->
  (exists columns,
      create nanoid12 now input db = (Throw (UniqueConstraint columns), db))
  /\ (createAgentSchema input = true ->
      create_route nanoid12 now input db
      = (Ok (ReplyError 409 "already_exists" "Moltbook username already registered"),
         db)).
Proof.
  intros Hconflict.
  assert (exists columns,
             create nanoid12 now input db = (Throw (UniqueConstraint columns), db))
    as [columns Hthrow].
  { unfold create, mbind, M_bind, insert_agent. cbn [id moltbook_username new_agent_row].
    destruct (bool_decide (is_Some (agents db !! ("mlt_" +:+ nanoid12)))) eqn:Hid;
      [eauto|].
    destruct Hconflict as [Hsome|Htaken];
      [by apply bool_decide_eq_false in Hid|].
    rewrite Htaken. eauto. }
  split; [eauto|]. intros Hschema.
  unfold create_route. rewrite Hschema. cbn [negb].
  unfold try_catch, mbind, M_bind. rewrite Hthrow.
  by rewrite unique_message_caught.
Qed.

(** X11: [create] with a username that a row already holds, or with an id
    that is taken, throws a uniqueness violation and stores nothing; the
    registration endpoint answers either case with 409 [already_exists]. *)
Theorem create_conflict (db : D1Database) (nanoid12 : string) (now : Z)
    (input : AgentCreateInput) :
  is_Some (agents db !! ("mlt_" +:+ nanoid12))
  \/ username_taken db (or_null (in_moltbook_username input)) = true ->
  (exists columns,
      create nanoid12 now input db = (Throw (UniqueConstraint columns), db))
  /\ (createAgentSchema input = true ->
      create_route nanoid12 now input db
      = (Ok (ReplyError 409 "already_exists" "Moltbook username already registered"),
         db)).
Proof. apply create_collides. Qed.

Lemma create_conflict_witness :
  create_route "Uakgb_J5m9g-" (t0 + 9)
    {| in_moltbook_username := Some "alice"; in_public_key := None;
       in_capabilities := None |} db_pair
  = (Ok (ReplyError 409 "already_exists" "Moltbook username already registered"),
     db_pair).
Proof.
  destruct (create_conflict db_pair "Uakgb_J5m9g-" (t0 + 9)
              {| in_moltbook_username := Some "alice"; in_public_key := None;
                 in_capabilities := None |}) as [_ Hroute];
    [right; reflexivity|].
  apply Hroute. reflexivity.
Defined.

(** X12: [getByMoltbook] never invents a row: what it returns is a row of
    the table that holds the requested username, and it returns nothing
    only when no row holds it.  When one row alone holds the username, that
    row is the answer. *)
Theorem getByMoltbook_sound (db : D1Database) (username : string) :
  (forall a, fst (getByMoltbook username db) = Ok (Some a) ->
             (exists k, agents db !! k = Some a) /\ moltbook_username a = Some username)
  /\ (fst (getByMoltbook username db) = Ok None ->
      forall k a, agents db !! k = Some a -> moltbook_username a <> Some username)
  /\ (forall k a,
         agents db !! k = Some a ->
         moltbook_username a = Some username ->
         (forall k' a', agents db !! k' = Some a' ->
                        moltbook_username a' = Some username -> a' = a) ->
         getByMoltbook username db = (Ok (Some a), db)).
Proof.
  split; [|split].
  - apply getByMoltbook_found.
  - apply getByMoltbook_none.
  - apply getByMoltbook_only.
Qed.

Lemma getByMoltbook_sound_witness :
  getByMoltbook "alice" db_pair = (Ok (Some alice), db_pair)
  /\ forall k a, agents db_pair !! k = Some a -> moltbook_username a <> Some "zed".
Proof.
  destruct (getByMoltbook_sound db_pair "alice") as (Hfound & _ & _).
  destruct (getByMoltbook_sound db_pair "zed") as (_ & Hnone & _).
  split; [|apply Hnone; reflexivity].
  destruct (Hfound alice eq_refl) as [_ _]. reflexivity.
Defined.

(** * Verification against Moltbook *)

Section Verification.

Implicit Types (db : D1Database) (a : Agent) (fetched : FetchOutcome).

Lemma append_cons (c : Ascii.ascii) (s t : string) :
  String c s +:+ t = String c (s +:+ t).
Proof. reflexivity. Qed.

Lemma append_empty (t : string) : EmptyString +:+ t = t.
Proof. reflexivity. Qed.

Lemma prefix_app (sub s : string) :
  String.prefix sub s = true <-> exists rest, s = sub +:+ rest.
Proof.
  revert s. induction sub as [|c sub IH]; intros s.
  - split; [intros _; by exists s|]. intros _. by destruct s.
  - destruct s as [|d s]; cbn; [split; [done|by intros [rest ?]]|].
    destruct (Ascii.ascii_dec c d) as [->|Hne].
    + rewrite IH. split; intros [rest H]; exists rest;
        rewrite append_cons in *; congruence.
    + split; [done|]. intros [rest H]. rewrite append_cons in H. congruence.
Qed.

(** [includes] is the substring test. *)
Lemma includes_substring (s sub : string) :
  includes s sub = true <-> exists before rest, s = before +:+ sub +:+ rest.
Proof.
  induction s as [|c s IH]; cbn [includes].
  - rewrite orb_false_r, prefix_app. split.
    + intros [rest H]. by exists EmptyString, rest.
    + intros (before & rest & H). destruct before as [|? ?]; [|done].
      exists rest. exact H.
  - rewrite orb_true_iff, prefix_app, IH. split.
    + intros [[rest H]|(before & rest & H)].
      * by exists EmptyString, rest.
      * exists (String c before), rest. rewrite append_cons. by rewrite H.
    + intros (before & rest & H). destruct before as [|d before].
      * left. by exists rest.
      * right. exists before, rest. rewrite append_cons in H. congruence.
Qed.

Lemma optional_includes (o : option string) (code : string) :
  match o with
  | Some c => includes c code
  | None => false
  end = true
  <-> exists c before rest, o = Some c /\ c = before +:+ code +:+ rest.
Proof.
  destruct o as [c|].
  - rewrite includes_substring. split.
    + intros (before & rest & H). by exists c, before, rest.
    + intros (c' & before & rest & [= <-] & H). by exists before, rest.
  - split; [done|]. by intros (? & ? & ? & ? & ?).
Qed.

Lemma falsy_string_false (s : option string) :
  falsy_string s = false <-> exists t, s = Some t /\ t <> EmptyString.
Proof.
  unfold falsy_string. destruct s as [t|].
  - rewrite bool_decide_eq_false. split; [eauto|]. by intros (? & [= <-] & ?).
  - split; [done|]. by intros (? & ? & ?).
Qed.

End Verification.

(** X13: [verifyMoltbook] reports an agent as verified exactly when the
    agent has a non-empty username and verification code, the profile
    request answered with an ok status and a body that parsed, the body
    says [success], and the content or the title of one of the recent posts
    contains the verification code.  It then returns the profile's karma
    (0 when the profile has none), and no karma otherwise. *)
Theorem verifyMoltbook_verified (a : Agent) (fetched : FetchOutcome) :
  (vr_verified (verifyMoltbook a fetched) = true <->
   exists username code data posts post,
     moltbook_username a = Some username /\ username <> EmptyString
     /\ verification_code a = Some code /\ code <> EmptyString
     /\ fetched = FetchResponse true (Some data)
     /\ md_success data = true
     /\ md_recentPosts data = Some posts
     /\ post ∈ posts
     /\ ((exists c before rest, post_content post = Some c /\ c = before +:+ code +:+ rest)
         \/ (exists t before rest, post_title post = Some t /\ t = before +:+ code +:+ rest)))
  /\ (forall data, fetched = FetchResponse true (Some data) ->
        vr_verified (verifyMoltbook a fetched) = true ->
        vr_karma (verifyMoltbook a fetched) = Some (or_zero (md_karma data)))
  /\ (vr_verified (verifyMoltbook a fetched) = false ->
      vr_karma (verifyMoltbook a fetched) = None).
Proof.
  assert (forall code post,
             post_mentions code post = true <->
             (exists c before rest,
                 post_content post = Some c /\ c = before +:+ code +:+ rest)
             \/ (exists t before rest,
                    post_title post = Some t /\ t = before +:+ code +:+ rest))
    as Hmentions.
  { intros code post. unfold post_mentions.
    by rewrite orb_true_iff, !optional_includes. }
  split; [|split].
  - unfold verifyMoltbook. split.
    + destruct (falsy_string (moltbook_username a)) eqn:Hu; [done|].
      destruct (falsy_string (verification_code a)) eqn:Hc; [done|]. cbn [orb].
      apply falsy_string_false in Hu as (username & Hu & Hune).
      apply falsy_string_false in Hc as (code & Hc & Hcne).
      destruct fetched as [|[|] [data|]]; try done.
      destruct (md_success data) eqn:Hsuccess; [|done]. cbn [negb].
      rewrite Hc. unfold default, from_option, Datatypes.id.
      destruct (md_recentPosts data) as [posts|] eqn:Hposts; [|done].
      destruct (existsb _ posts) eqn:Hex; [|done]. intros _.
      apply List.existsb_exists in Hex as (post & Hin & Hpost).
      exists username, code, data, posts, post.
      repeat (split; [done|]). split; [by apply list_elem_of_In|].
      by apply Hmentions.
    + intros (username & code & data & posts & post & Hu & Hune & Hc & Hcne
              & -> & Hsuccess & Hposts & Hin & Hpost).
      rewrite Hu, Hc. cbn.
      rewrite !bool_decide_eq_false_2 by done. cbn.
      rewrite Hsuccess, Hposts. cbn.
      assert (existsb (post_mentions code) posts = true) as ->; [|done].
      apply List.existsb_exists. exists post.
      split; [by apply list_elem_of_In|by apply Hmentions].
  - intros data ->. unfold verifyMoltbook.
    destruct (_ || _); [done|]. destruct (negb _); [done|].
    by destruct (existsb _ _).
  - unfold verifyMoltbook.
    destruct (_ || _); [done|].
    destruct fetched as [|[|] [data|]]; try done.
    destruct (negb _); [done|]. by destruct (existsb _ _).
Qed.

Lemma verifyMoltbook_verified_witness :
  vr_verified (verifyMoltbook bob bob_profile) = true
  /\ vr_karma (verifyMoltbook bob bob_profile) = Some 42
  /\ vr_verified (verifyMoltbook bob FetchThrows) = false.
Proof.
  destruct (verifyMoltbook_verified bob bob_profile) as ([_ Hverified] & Hkarma & _).
  assert (vr_verified (verifyMoltbook bob bob_profile) = true) as Hyes.
  { apply Hverified.
    exists "bob", "moltid-verify:mlt_bob",
      {| md_success := true;
         md_karma := Some 42;
         md_recentPosts :=
           Some [ {| post_content := Some "hello world"; post_title := None |};
                  {| post_content := Some "my id: moltid-verify:mlt_bob, thanks";
                     post_title := Some "verification" |} ] |},
      [ {| post_content := Some "hello world"; post_title := None |};
        {| post_content := Some "my id: moltid-verify:mlt_bob, thanks";
           post_title := Some "verification" |} ],
      {| post_content := Some "my id: moltid-verify:mlt_bob, thanks";
         post_title := Some "verification" |}.
    repeat (split; [done|]).
    split; [apply list_elem_of_In; right; left; reflexivity|].
    left. by exists "my id: moltid-verify:mlt_bob, thanks", "my id: ", ", thanks". }
  split; [exact Hyes|]. split; [|reflexivity].
  exact (Hkarma _ eq_refl Hyes).
Defined.

(** * The verification endpoint *)

Section VerifyEndpoint.

Implicit Types (db : D1Database) (env : VerifyEnv) (a : Agent).

Lemma verified_has_username a (fetched : FetchOutcome) :
  vr_verified (verifyMoltbook a fetched) = true ->
  falsy_string (moltbook_username a) = false.
Proof.
  unfold verifyMoltbook. by destruct (falsy_string (moltbook_username a)).
Qed.

Lemma verified_has_karma a (fetched : FetchOutcome) :
  vr_verified (verifyMoltbook a fetched) = true ->
  exists k, vr_karma (verifyMoltbook a fetched) = Some k.
Proof.
  unfold verifyMoltbook. destruct (_ || _); [done|].
  destruct fetched as [|[|] [data|]]; try done.
  destruct (negb _); [done|]. destruct (existsb _ _); [eauto|done].
Qed.

Lemma verified_updates_write (karma : option Z) :
  nothing_to_update (verified_updates karma) = false.
Proof. reflexivity. Qed.

Lemma verify_route_verified db env (agentId : string) a (fetched : FetchOutcome) :
  agents db !! agentId = Some a ->
  vr_verified (verifyMoltbook a fetched) = true ->
  verify_route env agentId fetched db
  = (Ok (ReplyData 200
           {| vd_verified := true;
              vd_karma_imported := vr_karma (verifyMoltbook a fetched);
              vd_trust_score :=
                calculateScore
                  (after_verified env agentId (vr_karma (verifyMoltbook a fetched)) db)
                  agentId (now_rescore env);
              vd_agent :=
                toPublic <$>
                  agents (after_verify_route env agentId
                            (vr_karma (verifyMoltbook a fetched)) db) !! agentId |}),
     after_verify_route env agentId (vr_karma (verifyMoltbook a fetched)) db).
Proof.
  intros Hrow Hverified.
  unfold verify_route, mbind, M_bind, getById, query. rewrite Hrow.
  rewrite (verified_has_username _ _ Hverified), Hverified.
  rewrite (update_writes _ _ _ _ (verified_updates_write _)).
  reflexivity.
Qed.

Lemma verify_route_rejects db env (agentId : string) (fetched : FetchOutcome) :
  match agents db !! agentId with
  | None =>
      verify_route env agentId fetched db
      = (Ok (ReplyError 404 "not_found" "Agent not found"), db)
  | Some a =>
      if falsy_string (moltbook_username a) then
        verify_route env agentId fetched db
        = (Ok (ReplyError 400 "no_moltbook" "No Moltbook username linked"), db)
      else
        vr_verified (verifyMoltbook a fetched) = false ->
        verify_route env agentId fetched db
        = (Ok (ReplyError 400 "verification_failed" (verification_failed_message a)), db)
  end.
Proof.
  unfold verify_route, mbind, M_bind, getById, query.
  destruct (agents db !! agentId) as [a|]; [|reflexivity].
  destruct (falsy_string (moltbook_username a)); [reflexivity|].
  by intros ->.
Qed.

End VerifyEndpoint.

(** X14: a verification that succeeds answers 200 and leaves the agent's
    row verified, active and holding the imported karma; the score it
    returns is the one it stores, computed after the row was marked
    verified: 20 plus the karma, age and vouch contributions.  The public
    view it returns is that of the stored row, and no other row and no
    vouch changes. *)
Theorem verify_route_success (db : D1Database) (env : VerifyEnv) (agentId : string)
    (a : Agent) (fetched : FetchOutcome) :
  agents db !! agentId = Some a ->
  vr_verified (verifyMoltbook a fetched) = true ->
  exists db' a' k newScore,
    verify_route env agentId fetched db
    = (Ok (ReplyData 200
             {| vd_verified := true; vd_karma_imported := Some k;
                vd_trust_score := newScore; vd_agent := Some (toPublic a') |}),
       db')
    /\ agents db' !! agentId = Some a'
    /\ moltbook_verified a' = true
    /\ status a' = active
    /\ moltbook_karma a' = Some k
    /\ trust_score a' = newScore
    /\ newScore
       = 20 + karmaFactor (Some k) + ageFactor (now_rescore env) (created_at a)
         + vouchPoints (verifiedVouches (after_verified env agentId (Some k) db) agentId)
    /\ (forall k', k' <> agentId -> agents db' !! k' = agents db !! k')
    /\ vouches db' = vouches db.
Proof.
  intros Hrow Hverified.
  destruct (verified_has_karma _ _ Hverified) as [k Hk].
  pose proof (verify_route_verified db env agentId a fetched Hrow Hverified) as Hroute.
  rewrite Hk in Hroute.
  remember (after_verified env agentId (Some k) db) as db1 eqn:Hdb1.
  remember (set_fields (verified_updates (Some k)) (now_verified env) a) as a1 eqn:Ha1.
  assert (agents db1 !! agentId = Some a1) as Hrow1.
  { rewrite Hdb1, Ha1. unfold after_verified, with_agents. cbn [agents].
    by rewrite lookup_alter_eq, Hrow. }
  remember (calculateScore db1 agentId (now_rescore env)) as newScore eqn:HnewScore.
  assert (agents (after_verify_route env agentId (Some k) db) !! agentId
          = Some (set_fields (only_trust_score newScore) (now_stored env) a1)) as Hrow2.
  { unfold after_verify_route. rewrite <- Hdb1, <- HnewScore.
    unfold with_agents. cbn [agents]. by rewrite lookup_alter_eq, Hrow1. }
  rewrite Hrow2 in Hroute.
  exists (after_verify_route env agentId (Some k) db),
         (set_fields (only_trust_score newScore) (now_stored env) a1), k, newScore.
  split; [exact Hroute|].
  split; [exact Hrow2|]. rewrite Ha1.
  repeat (split; [reflexivity|]).
  split; [|split; [|reflexivity]].
  - rewrite HnewScore, (calculateScore_sum _ _ _ _ Hrow1), Ha1, Hdb1. reflexivity.
  - intros k' Hk'. unfold after_verify_route, after_verified, with_agents. cbn [agents].
    by rewrite !lookup_alter_ne.
Qed.

Lemma verify_route_success_witness :
  exists db' a',
    fst (verify_route verify_env1 "mlt_bob" bob_profile db_pair)
    = Ok (ReplyData 200
            {| vd_verified := true; vd_karma_imported := Some 42;
               vd_trust_score := 22; vd_agent := Some (toPublic a') |})
    /\ snd (verify_route verify_env1 "mlt_bob" bob_profile db_pair) = db'
    /\ agents db' !! "mlt_bob" = Some a'
    /\ status a' = active
    /\ trust_score a' = 22.
Proof.
  destruct (verify_route_success db_pair verify_env1 "mlt_bob" bob bob_profile
              eq_refl eq_refl)
    as (db' & a' & k & newScore & Hroute & Hrow & _ & Hstatus & Hkarma & Hscore
        & Hsum & _).
  exists db', a'.
  assert (k = 42) as ->.
  { assert (fst (verify_route verify_env1 "mlt_bob" bob_profile db_pair)
            = Ok (ReplyData 200
                    {| vd_verified := true; vd_karma_imported := Some k;
                       vd_trust_score := newScore; vd_agent := Some (toPublic a') |}))
      as H by (by rewrite Hroute).
    vm_compute in H. congruence. }
  assert (newScore = 22) as -> by (rewrite Hsum; reflexivity).
  rewrite Hroute. split; [reflexivity|]. split; [reflexivity|].
  split; [exact Hrow|]. split; [exact Hstatus|exact Hscore].
Defined.

(** X15: a verification that does not succeed changes nothing in the
    store: an unknown id is answered 404, an agent without a username 400
    [no_moltbook], and an agent whose code was not found 400
    [verification_failed] with a message that quotes the agent's code. *)
Theorem verify_route_failure (db : D1Database) (env : VerifyEnv) (agentId : string)
    (fetched : FetchOutcome) :
  (agents db !! agentId = None ->
   verify_route env agentId fetched db
   = (Ok (ReplyError 404 "not_found" "Agent not found"), db))
  /\ (forall a,
         agents db !! agentId = Some a ->
         falsy_string (moltbook_username a) = true ->
         verify_route env agentId fetched db
         = (Ok (ReplyError 400 "no_moltbook" "No Moltbook username linked"), db))
  /\ (forall a,
         agents db !! agentId = Some a ->
         vr_verified (verifyMoltbook a fetched) = false ->
         exists message,
           verify_route env agentId fetched db
           = (Ok (ReplyError 400 message.1 message.2), db)
           /\ (falsy_string (moltbook_username a) = false ->
               message = ("verification_failed", verification_failed_message a))).
Proof.
  pose proof (verify_route_rejects db env agentId fetched) as H.
  split; [|split].
  - intros Hnone. by rewrite Hnone in H.
  - intros a Hrow Hfalsy. by rewrite Hrow, Hfalsy in H.
  - intros a Hrow Hno. rewrite Hrow in H.
    destruct (falsy_string (moltbook_username a)).
    + exists ("no_moltbook", "No Moltbook username linked"). split; [exact H|done].
    + exists ("verification_failed", verification_failed_message a).
      split; [by apply H|done].
Qed.

Lemma verify_route_failure_witness :
  verify_route verify_env1 "mlt_ghost" bob_profile db_pair
  = (Ok (ReplyError 404 "not_found" "Agent not found"), db_pair)
  /\ exists message,
       verify_route verify_env1 "mlt_bob" FetchThrows db_pair
       = (Ok (ReplyError 400 message.1 message.2), db_pair).
Proof.
  destruct (verify_route_failure db_pair verify_env1 "mlt_ghost" bob_profile)
    as (Hmissing & _ & _).
  destruct (verify_route_failure db_pair verify_env1 "mlt_bob" FetchThrows)
    as (_ & _ & Hfailed).
  split; [apply Hmissing; reflexivity|].
  destruct (Hfailed bob eq_refl eq_refl) as (message & Hroute & _).
  by exists message.
Defined.

(** * The vouch endpoint, case by case *)

(** The answer of the vouch endpoint, decided guard by guard. *)
Lemma vouch_route_decided (db : D1Database) (env : Env) (toId fromId : string) :
  vouch_route env toId fromId db
  = if negb (vouchSchema fromId) then (Ok JsonInvalidBody, db)
    else if not_verified (agents db !! fromId) then
      (Ok (JsonError 403 "unauthorized" "Only verified agents can vouch"), db)
    else if bool_decide (agents db !! toId = None) then
      (Ok (JsonError 404 "not_found" "Agent not found"), db)
    else if bool_decide (fromId = toId) then
      (Ok (JsonError 400 "invalid_vouch" "Cannot vouch for yourself"), db)
    else if negb (fresh_vouch_id db (env_nanoid env)) || has_edge db fromId toId then
      (Ok (JsonError 409 "already_vouched" "Already vouched for this agent"), db)
    else
      (Ok (JsonVouchAdded
             (calculateScore
                (after_addVouch (env_nanoid env) (now_addVouch env) fromId toId db)
                toId (now_calculateScore env))),
       after_vouch_route env toId fromId db).
Proof.
  unfold vouch_route.
  destruct (vouchSchema fromId) eqn:Hschema; cbn [negb]; [|reflexivity].
  unfold mbind, M_bind, getById, query, try_catch.
  destruct (not_verified (agents db !! fromId)) eqn:Hver; [reflexivity|].
  destruct (not_verified_false _ _ Hver) as (voucher & Hvoucher & _).
  destruct (agents db !! toId) as [target|] eqn:Htarget;
    [rewrite !(bool_decide_eq_false_2 (Some target = None)) by done
    |rewrite !(bool_decide_eq_true_2 (None = None)) by done; reflexivity].
  destruct (bool_decide (fromId = toId)) eqn:Hself; [reflexivity|].
  unfold addVouch, mbind, M_bind, insert_vouch, references_agents,
    fresh_vouch_id, has_edge.
  cbn [v_id from_agent_id to_agent_id].
  destruct (existsb (has_id _) (vouches db)); [reflexivity|].
  destruct (existsb (is_pair _ _) (vouches db)); [reflexivity|].
  rewrite Hvoucher, Htarget.
  rewrite !bool_decide_eq_true_2 by eauto.
  rewrite andb_false_r. reflexivity.
Qed.

(** X16: the vouch endpoint always answers and never lets a store error
    escape.  Its answer is decided in this order: 400 for an empty voucher
    id, 403 when the voucher is missing or unverified, 404 when the
    recipient is missing, 400 [invalid_vouch] for a self-vouch, 409
    [already_vouched] when the edge exists (or the generated row id is
    taken), and otherwise 200 with the recomputed score.  Only the 200
    answer changes the store. *)
Theorem vouch_route_table (db : D1Database) (env : Env) (toId fromId : string) :
  vouch_route env toId fromId db
  = if negb (vouchSchema fromId) then (Ok JsonInvalidBody, db)
    else if not_verified (agents db !! fromId) then
      (Ok (JsonError 403 "unauthorized" "Only verified agents can vouch"), db)
    else if bool_decide (agents db !! toId = None) then
      (Ok (JsonError 404 "not_found" "Agent not found"), db)
    else if bool_decide (fromId = toId) then
      (Ok (JsonError 400 "invalid_vouch" "Cannot vouch for yourself"), db)
    else if negb (fresh_vouch_id db (env_nanoid env)) || has_edge db fromId toId then
      (Ok (JsonError 409 "already_vouched" "Already vouched for this agent"), db)
    else
      (Ok (JsonVouchAdded
             (calculateScore
                (after_addVouch (env_nanoid env) (now_addVouch env) fromId toId db)
                toId (now_calculateScore env))),
       after_vouch_route env toId fromId db).
Proof. apply vouch_route_decided. Qed.

(** X17: a vouch request that succeeds touches one row and adds one row.
    The recipient's counter grows by exactly 1 and its stored score is
    replaced; its verification flag, karma, status, username, code and
    [created_at] stay as they were.  Every other agent row, the voucher's
    included, is unchanged, and the vouch table is the old one followed by
    the new edge. *)
Theorem vouch_route_frame (db : D1Database) (env : Env) (toId fromId : string)
    (target : Agent) :
  fromId <> EmptyString ->
  not_verified (agents db !! fromId) = false ->
  agents db !! toId = Some target ->
  fromId <> toId ->
  fresh_vouch_id db (env_nanoid env) = true ->
  has_edge db fromId toId = false ->
  exists db' target' newScore,
    vouch_route env toId fromId db = (Ok (JsonVouchAdded newScore), db')
    /\ agents db' !! toId = Some target'
    /\ vouch_count target' = vouch_count target + 1
    /\ trust_score target' = newScore
    /\ (moltbook_verified target', moltbook_karma target', status target',
        moltbook_username target', verification_code target', created_at target',
        id target')
       = (moltbook_verified target, moltbook_karma target, status target,
          moltbook_username target, verification_code target, created_at target,
          id target)
    /\ (forall k, k <> toId -> agents db' !! k = agents db !! k)
    /\ agents db' !! fromId = agents db !! fromId
    /\ edges db' = edges db ++ [(fromId, toId)]
    /\ length (vouches db') = S (length (vouches db)).
Proof.
  intros Hne Hver Htarget Hself Hfresh Hedge.
  pose proof (vouch_route_decided db env toId fromId) as Htable.
  rewrite (vouchSchema_nonempty _ Hne), Hver, Htarget, Hfresh, Hedge in Htable.
  rewrite (bool_decide_eq_false_2 (Some target = None)) in Htable by done.
  rewrite (bool_decide_eq_false_2 (fromId = toId)) in Htable by done.
  cbn [negb orb] in Htable.
  eexists _, _, _. split; [exact Htable|].
  assert (forall k, k <> toId ->
            agents (after_vouch_route env toId fromId db) !! k = agents db !! k) as Hframe.
  { intros k Hk. unfold after_vouch_route, after_addVouch, with_agents. cbn [agents].
    by rewrite !lookup_alter_ne. }
  split.
  { unfold after_vouch_route, after_addVouch, with_agents. cbn [agents].
    by rewrite !lookup_alter_eq, Htarget. }
  repeat (split; [reflexivity|]).
  split; [exact Hframe|]. split; [by apply Hframe|].
  unfold edges, after_vouch_route, after_addVouch, with_agents. cbn [vouches].
  split; [by rewrite fmap_app|]. rewrite length_app. cbn. lia.
Qed.

Lemma vouch_route_frame_witness :
  exists db' target',
    vouch_route env1 "mlt_bob" "mlt_alice" db_pair = (Ok (JsonVouchAdded 6), db')
    /\ agents db' !! "mlt_bob" = Some target'
    /\ vouch_count target' = 1
    /\ agents db' !! "mlt_alice" = Some alice
    /\ edges db' = [("mlt_alice", "mlt_bob")].
Proof.
  destruct (vouch_route_frame db_pair env1 "mlt_bob" "mlt_alice" bob)
    as (db' & target' & newScore & Hroute & Hrow & Hcount & _ & _ & _ & Hvoucher
        & Hedges & _);
    [done|reflexivity|reflexivity|done|reflexivity|reflexivity|].
  exists db', target'.
  assert (newScore = 6) as ->.
  { assert (fst (vouch_route env1 "mlt_bob" "mlt_alice" db_pair)
            = Ok (JsonVouchAdded newScore)) as H by (by rewrite Hroute).
    vm_compute in H. congruence. }
  split; [exact Hroute|]. split; [exact Hrow|]. split; [exact Hcount|].
  split; [rewrite Hvoucher; reflexivity|exact Hedges].
Defined.

(** * Invariants of the store behind the endpoints *)

Section Invariants.

Implicit Types (db : D1Database) (a : Agent) (v : Vouch).

Lemma isVoucherVerified_exists db (k : string) :
  isVoucherVerified db k = true ->
  exists a, agents db !! k = Some a /\ moltbook_verified a = true.
Proof. unfold isVoucherVerified. destruct (agents db !! k); [eauto|done]. Qed.

Lemma no_pair_not_in db (fromId toId : string) :
  has_edge db fromId toId = false -> (fromId, toId) ∉ edges db.
Proof.
  unfold has_edge, edges. intros Hno Hin.
  apply list_elem_of_fmap in Hin as (v & Heq & Hin). injection Heq as Hf Ht.
  assert (existsb (is_pair fromId toId) (vouches db) = true) as Hyes; [|congruence].
  apply List.existsb_exists. exists v. split; [by apply list_elem_of_In|].
  unfold is_pair. by rewrite !bool_decide_eq_true_2.
Qed.

Lemma fresh_id_not_in db (nanoid12 : string) :
  fresh_vouch_id db nanoid12 = true -> ("vch_" +:+ nanoid12) ∉ (v_id <$> vouches db).
Proof.
  unfold fresh_vouch_id. intros Hfresh Hin. apply negb_true_iff in Hfresh.
  apply list_elem_of_fmap in Hin as (v & Heq & Hin).
  assert (existsb (has_id ("vch_" +:+ nanoid12)) (vouches db) = true) as Hyes;
    [|congruence].
  apply List.existsb_exists. exists v. split; [by apply list_elem_of_In|].
  unfold has_id. by rewrite bool_decide_eq_true_2.
Qed.

Lemma NoDup_snoc_fresh {A : Type} (l : list A) (x : A) :
  NoDup l -> x ∉ l -> NoDup (l ++ [x]).
Proof.
  intros Hl Hx. apply NoDup_app. split; [done|]. split; [|apply NoDup_singleton].
  intros y Hy Hin. apply list_elem_of_singleton in Hin. by subst.
Qed.

Lemma store_inv_empty (fk : bool) :
  store_inv {| agents := ∅; vouches := []; foreign_keys := fk |}.
Proof.
  split; cbn; try (intros; simplify_map_eq; done); try apply NoDup_nil_2.
  - intros v Hv. by apply elem_of_nil in Hv.
  - intros v Hv. by apply elem_of_nil in Hv.
Qed.

(** Rewriting one row without touching what the graph invariants read. *)
Lemma store_inv_alter db (f : Agent -> Agent) (k : string) :
  store_inv db ->
  (forall a, agents db !! k = Some a ->
             id (f a) = id a
             /\ verification_code (f a) = verification_code a
             /\ moltbook_username (f a) = moltbook_username a
             /\ vouch_count (f a) = vouch_count a
             /\ (moltbook_verified a = true -> moltbook_verified (f a) = true)
             /\ (if moltbook_verified (f a)
                 then status (f a) = active /\ is_Some (moltbook_karma (f a))
                 else status (f a) = pending /\ moltbook_karma (f a) = None)
             /\ trust_score (f a) <= 100) ->
  store_inv (with_agents (alter f k) db).
Proof.
  intros Hinv Hf.
  assert (forall k' a', agents (with_agents (alter f k) db) !! k' = Some a' ->
            exists a, agents db !! k' = Some a
                      /\ (a' = a \/ (k' = k /\ a' = f a))) as Hlook.
  { intros k' a'. cbn. rewrite lookup_alter. case_decide as Hk.
    - subst k'. destruct (agents db !! k) as [a|]; cbn; [|done].
      intros [= <-]. eauto.
    - eauto. }
  split.
  - intros k' a' H. destruct (Hlook _ _ H) as (a & Hrow & [->|[-> ->]]).
    + by eapply inv_ids.
    + destruct (Hf a Hrow) as (-> & _). by eapply inv_ids.
  - intros k' a' H. destruct (Hlook _ _ H) as (a & Hrow & [->|[-> ->]]).
    + by eapply inv_codes.
    + destruct (Hf a Hrow) as (_ & -> & _). by eapply inv_codes.
  - intros k1 k2 a1 a2 u H1 H2 Hu1 Hu2.
    destruct (Hlook _ _ H1) as (b1 & Hrow1 & Hb1).
    destruct (Hlook _ _ H2) as (b2 & Hrow2 & Hb2).
    assert (moltbook_username b1 = Some u) as Hn1.
    { destruct Hb1 as [->|[-> ->]]; [done|].
      destruct (Hf b1 Hrow1) as (_ & _ & <- & _). done. }
    assert (moltbook_username b2 = Some u) as Hn2.
    { destruct Hb2 as [->|[-> ->]]; [done|].
      destruct (Hf b2 Hrow2) as (_ & _ & <- & _). done. }
    by eapply (inv_usernames db Hinv k1 k2 b1 b2 u).
  - apply (inv_vouch_ids db Hinv).
  - apply (inv_edges db Hinv).
  - apply (inv_no_self db Hinv).
  - intros v Hv. destruct (inv_ends db Hinv v Hv) as [Hver Hto]. split.
    + apply isVoucherVerified_exists in Hver as (b & Hrow & Hflag).
      unfold isVoucherVerified. cbn. rewrite lookup_alter.
      case_decide as Hk; [|by rewrite Hrow, Hflag].
      subst k. rewrite Hrow. cbn.
      destruct (Hf b Hrow) as (_ & _ & _ & _ & Hup & _). by apply Hup.
    + cbn. by apply lookup_alter_is_Some.
  - intros k' a' H. destruct (Hlook _ _ H) as (a & Hrow & [->|[-> ->]]).
    + by apply (inv_counter db Hinv).
    + destruct (Hf a Hrow) as (_ & _ & _ & -> & _). by apply (inv_counter db Hinv).
  - intros k' a' H. destruct (Hlook _ _ H) as (a & Hrow & [->|[-> ->]]).
    + by apply (inv_status db Hinv k').
    + by destruct (Hf a Hrow) as (_ & _ & _ & _ & _ & Hst & _).
  - intros k' a' H. destruct (Hlook _ _ H) as (a & Hrow & [->|[-> ->]]).
    + by apply (inv_score db Hinv k').
    + by destruct (Hf a Hrow) as (_ & _ & _ & _ & _ & _ & Hsc).
Qed.

End Invariants.

Section InvariantSteps.

Implicit Types (db : D1Database) (a : Agent) (v : Vouch).

Lemma store_inv_insert db (k : string) (input : AgentCreateInput) (now : Z) :
  store_inv db ->
  agents db !! k = None ->
  username_taken db (or_null (in_moltbook_username input)) = false ->
  store_inv (with_agents (insert k (new_agent_row k input now)) db).
Proof.
  intros Hinv Hfresh Hfree.
  assert (forall k' a', agents (with_agents (insert k (new_agent_row k input now)) db)
                          !! k' = Some a' ->
            (k' = k /\ a' = new_agent_row k input now)
            \/ (k' <> k /\ agents db !! k' = Some a')) as Hlook.
  { intros k' a'. cbn. rewrite lookup_insert. case_decide as Hk.
    - intros [= <-]. by left.
    - intros H. right. split; [congruence|done]. }
  assert (forall x, is_Some (agents db !! x) ->
            agents (with_agents (insert k (new_agent_row k input now)) db) !! x
            = agents db !! x) as Hold.
  { intros x [b Hb]. cbn. rewrite lookup_insert_ne; [done|]. congruence. }
  split.
  - intros k' a' H. destruct (Hlook _ _ H) as [[-> ->]|[_ Hrow]];
      [done|by eapply inv_ids].
  - intros k' a' H. destruct (Hlook _ _ H) as [[-> ->]|[_ Hrow]];
      [done|by eapply inv_codes].
  - intros k1 k2 a1 a2 u H1 H2 Hu1 Hu2.
    destruct (Hlook _ _ H1) as [[-> ->]|[Hk1 Hrow1]],
             (Hlook _ _ H2) as [[-> ->]|[Hk2 Hrow2]]; try done.
    + cbn in Hu1. by destruct (username_taken_false db _ Hfree k2 a2 u Hrow2 Hu1).
    + cbn in Hu2. by destruct (username_taken_false db _ Hfree k1 a1 u Hrow1 Hu2).
    + by eapply (inv_usernames db Hinv k1 k2 a1 a2 u).
  - apply (inv_vouch_ids db Hinv).
  - apply (inv_edges db Hinv).
  - apply (inv_no_self db Hinv).
  - intros v Hv. destruct (inv_ends db Hinv v Hv) as [Hver Hto]. split.
    + unfold isVoucherVerified in *. rewrite Hold; [done|].
      destruct (agents db !! from_agent_id v); [eauto|done].
    + by rewrite Hold.
  - intros k' a' H. destruct (Hlook _ _ H) as [[-> ->]|[_ Hrow]].
    + cbn [vouch_count new_agent_row].
      assert (incoming (with_agents (insert k (new_agent_row k input now)) db) k = [])
        as ->; [|done].
      unfold incoming. cbn [vouches with_agents].
      assert (forall l : list Vouch,
                 (forall v, v ∈ l -> is_Some (agents db !! to_agent_id v)) ->
                 List.filter (fun v => bool_decide (to_agent_id v = k)) l = [])
        as Hnone.
      { induction l as [|v l IH]; [done|]. intros Hl. cbn.
        rewrite bool_decide_eq_false_2.
        - apply IH. intros w Hw. apply Hl. apply elem_of_cons. by right.
        - intros Heq. destruct (Hl v) as [b Hb]; [apply elem_of_cons; by left|].
          rewrite Heq, Hfresh in Hb. done. }
      apply Hnone. intros v Hv. by destruct (inv_ends db Hinv v Hv).
    + by apply (inv_counter db Hinv).
  - intros k' a' H. destruct (Hlook _ _ H) as [[-> ->]|[_ Hrow]];
      [done|by apply (inv_status db Hinv k')].
  - intros k' a' H. destruct (Hlook _ _ H) as [[-> ->]|[_ Hrow]];
      [done|by apply (inv_score db Hinv k')].
Qed.

Lemma store_inv_after_addVouch db (nanoid12 : string) (now : Z) (fromId toId : string) :
  store_inv db ->
  fromId <> toId ->
  isVoucherVerified db fromId = true ->
  is_Some (agents db !! toId) ->
  fresh_vouch_id db nanoid12 = true ->
  has_edge db fromId toId = false ->
  store_inv (after_addVouch nanoid12 now fromId toId db).
Proof.
  intros Hinv Hself Hver Hto Hfresh Hedge.
  assert (forall k' a', agents (after_addVouch nanoid12 now fromId toId db) !! k'
                        = Some a' ->
            exists a, agents db !! k' = Some a
                      /\ ((k' <> toId /\ a' = a)
                          \/ (k' = toId /\ a' = bump_vouch_count now a))) as Hlook.
  { intros k' a'. unfold after_addVouch. cbn [agents]. rewrite lookup_alter.
    case_decide as Hk.
    - subst k'. destruct (agents db !! toId) as [a|]; cbn; [|done].
      intros [= <-]. eauto.
    - intros H. exists a'. split; [done|]. left. split; [congruence|done]. }
  assert (forall x, isVoucherVerified (after_addVouch nanoid12 now fromId toId db) x
                    = isVoucherVerified db x) as Hflags.
  { intros x. unfold isVoucherVerified, after_addVouch. cbn [agents].
    rewrite lookup_alter. case_decide as Hk; [|done].
    subst x. by destruct (agents db !! toId). }
  split.
  - intros k' a' H. destruct (Hlook _ _ H) as (a & Hrow & [[_ ->]|[-> ->]]);
      by apply (inv_ids db Hinv _ a).
  - intros k' a' H. destruct (Hlook _ _ H) as (a & Hrow & [[_ ->]|[-> ->]]);
      by apply (inv_codes db Hinv _ a).
  - intros k1 k2 a1 a2 u H1 H2 Hu1 Hu2.
    destruct (Hlook _ _ H1) as (b1 & Hrow1 & Hb1).
    destruct (Hlook _ _ H2) as (b2 & Hrow2 & Hb2).
    assert (moltbook_username b1 = Some u) as Hn1
      by (by destruct Hb1 as [[_ ->]|[_ ->]]).
    assert (moltbook_username b2 = Some u) as Hn2
      by (by destruct Hb2 as [[_ ->]|[_ ->]]).
    by eapply (inv_usernames db Hinv k1 k2 b1 b2 u).
  - unfold after_addVouch. cbn [vouches]. rewrite fmap_app. cbn.
    apply NoDup_snoc_fresh; [apply (inv_vouch_ids db Hinv)|by apply fresh_id_not_in].
  - unfold edges, after_addVouch. cbn [vouches]. rewrite fmap_app. cbn.
    apply NoDup_snoc_fresh; [apply (inv_edges db Hinv)|by apply no_pair_not_in].
  - intros v Hv. unfold after_addVouch in Hv. cbn [vouches] in Hv.
    apply elem_of_app in Hv as [Hv|Hv]; [by apply (inv_no_self db Hinv)|].
    apply list_elem_of_singleton in Hv. by subst v.
  - intros v Hv. rewrite Hflags.
    assert (is_Some (agents (after_addVouch nanoid12 now fromId toId db)
                       !! to_agent_id v)
            <-> is_Some (agents db !! to_agent_id v)) as ->
      by (unfold after_addVouch; cbn [agents]; apply lookup_alter_is_Some).
    unfold after_addVouch in Hv. cbn [vouches] in Hv.
    apply elem_of_app in Hv as [Hv|Hv]; [by apply (inv_ends db Hinv)|].
    apply list_elem_of_singleton in Hv. by subst v.
  - intros k' a' H. unfold incoming, after_addVouch. cbn [vouches].
    rewrite List.filter_app, length_app. cbn [List.filter to_agent_id vouch_row].
    fold (incoming db k').
    destruct (Hlook _ _ H) as (a & Hrow & [[Hk ->]|[-> ->]]).
    + rewrite bool_decide_eq_false_2 by congruence. cbn.
      rewrite Nat.add_0_r. by apply (inv_counter db Hinv).
    + rewrite bool_decide_eq_true_2 by done. cbn.
      rewrite (inv_counter db Hinv toId a Hrow). lia.
  - intros k' a' H. destruct (Hlook _ _ H) as (a & Hrow & [[_ ->]|[-> ->]]);
      exact (inv_status db Hinv _ a Hrow).
  - intros k' a' H. destruct (Hlook _ _ H) as (a & Hrow & [[_ ->]|[-> ->]]);
      exact (inv_score db Hinv _ a Hrow).
Qed.

End InvariantSteps.

Section Reachability.

Implicit Types (db : D1Database) (a : Agent).

Lemma create_route_store db (nanoid12 : string) (now : Z) (input : AgentCreateInput) :
  snd (create_route nanoid12 now input db) = db
  \/ (agents db !! ("mlt_" +:+ nanoid12) = None
      /\ username_taken db (or_null (in_moltbook_username input)) = false
      /\ snd (create_route nanoid12 now input db)
         = with_agents (insert ("mlt_" +:+ nanoid12)
                          (new_agent_row ("mlt_" +:+ nanoid12) input now)) db).
Proof.
  unfold create_route. destruct (createAgentSchema input); cbn [negb]; [|by left].
  destruct (agents db !! ("mlt_" +:+ nanoid12)) as [b|] eqn:Hid.
  - left. destruct (create_collides db nanoid12 now input) as [[columns Hthrow] _];
      [left; by rewrite Hid|].
    unfold try_catch, mbind, M_bind. rewrite Hthrow. by rewrite unique_message_caught.
  - destruct (username_taken db (or_null (in_moltbook_username input))) eqn:Hname.
    + left. destruct (create_collides db nanoid12 now input) as [[columns Hthrow] _];
        [by right|].
      unfold try_catch, mbind, M_bind. rewrite Hthrow.
      by rewrite unique_message_caught.
    + right. split; [done|]. split; [done|].
      unfold try_catch, mbind, M_bind.
      by rewrite (create_inserts _ _ _ _ Hid Hname).
Qed.

Lemma verify_route_store db (env : VerifyEnv) (agentId : string) (fetched : FetchOutcome) :
  snd (verify_route env agentId fetched db) = db
  \/ (exists a k,
         agents db !! agentId = Some a
         /\ snd (verify_route env agentId fetched db)
            = after_verify_route env agentId (Some k) db).
Proof.
  pose proof (verify_route_rejects db env agentId fetched) as Hrej.
  destruct (agents db !! agentId) as [a|] eqn:Hrow; [|left; by rewrite Hrej].
  destruct (vr_verified (verifyMoltbook a fetched)) eqn:Hver.
  - right. destruct (verified_has_karma _ _ Hver) as [k Hk].
    exists a, k. split; [done|].
    by rewrite (verify_route_verified _ _ _ _ _ Hrow Hver), Hk.
  - left. destruct (falsy_string (moltbook_username a)); [by rewrite Hrej|].
    by rewrite Hrej.
Qed.

Lemma store_inv_after_verify db (env : VerifyEnv) (agentId : string) (k : Z) :
  store_inv db -> store_inv (after_verify_route env agentId (Some k) db).
Proof.
  intros Hinv. unfold after_verify_route.
  assert (store_inv (after_verified env agentId (Some k) db)) as Hinv1.
  { unfold after_verified. apply store_inv_alter; [done|].
    intros a Hrow. do 4 (split; [reflexivity|]).
    split; [intros _; reflexivity|].
    split; [cbn; split; [reflexivity|by eexists]|].
    exact (inv_score db Hinv _ a Hrow). }
  apply store_inv_alter; [done|].
  intros a Hrow. do 4 (split; [reflexivity|]).
  split; [intros Hflag; exact Hflag|].
  split; [exact (inv_status _ Hinv1 _ a Hrow)|].
  apply calculateScore_le_100.
Qed.

Lemma store_inv_after_vouch db (env : Env) (toId fromId : string) :
  store_inv db ->
  not_verified (agents db !! fromId) = false ->
  is_Some (agents db !! toId) ->
  fromId <> toId ->
  fresh_vouch_id db (env_nanoid env) = true ->
  has_edge db fromId toId = false ->
  store_inv (after_vouch_route env toId fromId db).
Proof.
  intros Hinv Hver Hto Hself Hfresh Hedge. unfold after_vouch_route.
  assert (isVoucherVerified db fromId = true) as Hqual.
  { destruct (not_verified_false _ _ Hver) as (b & Hb & Hflag).
    unfold isVoucherVerified. by rewrite Hb. }
  pose proof (store_inv_after_addVouch db (env_nanoid env) (now_addVouch env)
                fromId toId Hinv Hself Hqual Hto Hfresh Hedge) as Hinv1.
  apply store_inv_alter; [done|].
  intros a Hrow. do 4 (split; [reflexivity|]).
  split; [intros Hflag; exact Hflag|].
  split; [exact (inv_status _ Hinv1 _ a Hrow)|].
  apply calculateScore_le_100.
Qed.

Lemma store_inv_handle db (r : Request) : store_inv db -> store_inv (handle r db).
Proof.
  intros Hinv. destruct r as [nanoid12 now input|env agentId fetched|env toId fromId];
    cbn [handle].
  - destruct (create_route_store db nanoid12 now input) as [->|(Hid & Hname & ->)];
      [done|by apply store_inv_insert].
  - destruct (verify_route_store db env agentId fetched) as [->|(a & k & Hrow & ->)];
      [done|by apply store_inv_after_verify].
  - rewrite vouch_route_decided.
    destruct (negb (vouchSchema fromId)); [done|].
    destruct (not_verified (agents db !! fromId)) eqn:Hver; [done|].
    destruct (bool_decide (agents db !! toId = None)) eqn:Hto; [done|].
    destruct (bool_decide (fromId = toId)) eqn:Hself; [done|].
    destruct (fresh_vouch_id db (env_nanoid env)) eqn:Hfresh; [|done].
    destruct (has_edge db fromId toId) eqn:Hedge; [done|]. cbn [negb orb snd].
    apply bool_decide_eq_false in Hto, Hself.
    apply store_inv_after_vouch; try done.
    by destruct (agents db !! toId).
Qed.

Lemma reachable_store_inv db : reachable db -> store_inv db.
Proof.
  induction 1 as [fk|db r _ IH]; [apply store_inv_empty|by apply store_inv_handle].
Qed.

Lemma demo_db_reachable : reachable demo_db.
Proof. unfold demo_db, empty_db. repeat apply reachable_handle. apply reachable_empty. Qed.

End Reachability.

(** X18: in every store the endpoints can produce, the vouch graph has at
    most one edge per ordered pair of agents, no edge from an agent to
    itself, and no two vouch rows with the same id. *)
Theorem reachable_graph_simple (db : D1Database) :
  reachable db ->
  NoDup (edges db)
  /\ (forall k, has_edge db k k = false)
  /\ NoDup (v_id <$> vouches db).
Proof.
  intros Hreach. pose proof (reachable_store_inv db Hreach) as Hinv.
  split; [apply (inv_edges db Hinv)|]. split; [|apply (inv_vouch_ids db Hinv)].
  intros k. unfold has_edge. destruct (existsb _ _) eqn:Hex; [|done].
  apply List.existsb_exists in Hex as (v & Hin & Hpair).
  unfold is_pair in Hpair. apply andb_true_iff in Hpair as [Hf Ht].
  apply bool_decide_eq_true in Hf, Ht.
  destruct (inv_no_self db Hinv v); [by apply list_elem_of_In|congruence].
Qed.

Lemma reachable_graph_simple_witness :
  NoDup (edges demo_db) /\ has_edge demo_db "mlt_annannannann" "mlt_annannannann" = false.
Proof.
  destruct (reachable_graph_simple demo_db demo_db_reachable) as (Hedges & Hself & _).
  split; [exact Hedges|apply Hself].
Defined.

(** X19: in every store the endpoints can produce, each vouch edge joins
    two different agents that both have a row, and its voucher is
    verified; so the foreign keys of [vouches] always hold. *)
Theorem reachable_edges_ends (db : D1Database) (fromId toId : string) :
  reachable db ->
  has_edge db fromId toId = true ->
  isVoucherVerified db fromId = true
  /\ is_Some (agents db !! fromId)
  /\ is_Some (agents db !! toId)
  /\ fromId <> toId.
Proof.
  intros Hreach Hedge. pose proof (reachable_store_inv db Hreach) as Hinv.
  unfold has_edge in Hedge. apply List.existsb_exists in Hedge as (v & Hin & Hpair).
  unfold is_pair in Hpair. apply andb_true_iff in Hpair as [Hf Ht].
  apply bool_decide_eq_true in Hf, Ht. apply list_elem_of_In in Hin.
  destruct (inv_ends db Hinv v Hin) as [Hver Hto].
  pose proof (inv_no_self db Hinv v Hin) as Hself. subst fromId toId.
  split; [done|]. split; [|done].
  apply isVoucherVerified_exists in Hver as (b & Hb & _). by rewrite Hb.
Qed.

Lemma reachable_edges_ends_witness :
  isVoucherVerified demo_db "mlt_annannannann" = true
  /\ is_Some (agents demo_db !! "mlt_annannannann")
  /\ is_Some (agents demo_db !! "mlt_benbenbenben")
  /\ "mlt_annannannann" <> "mlt_benbenbenben".
Proof.
  apply (reachable_edges_ends demo_db "mlt_annannannann" "mlt_benbenbenben"
           demo_db_reachable).
  reflexivity.
Defined.

Section Counters.

Implicit Types (db : D1Database).

Lemma vouchers_NoDup (k : string) (l : list Vouch) :
  NoDup ((fun v => (from_agent_id v, to_agent_id v)) <$> l) ->
  NoDup (from_agent_id <$>
           List.filter (fun v => bool_decide (to_agent_id v = k)) l).
Proof.
  induction l as [|v l IH]; [intros _; apply NoDup_nil_2|].
  rewrite fmap_cons, NoDup_cons. intros [Hnotin Hrest]. cbn [List.filter].
  case_bool_decide as Hto; [|by apply IH].
  rewrite fmap_cons. apply NoDup_cons. split; [|by apply IH].
  intros Hin. apply Hnotin.
  apply list_elem_of_fmap in Hin as (w & Hfrom & Hw).
  apply list_elem_of_In, List.filter_In in Hw as [Hw Hwto].
  apply bool_decide_eq_true in Hwto.
  apply list_elem_of_fmap. exists w. split; [congruence|by apply list_elem_of_In].
Qed.

Lemma verified_incoming db (k : string) :
  (forall v, v ∈ vouches db -> isVoucherVerified db (from_agent_id v) = true) ->
  verifiedVouches db k = Z.of_nat (length (incoming db k)).
Proof.
  intros Hall. unfold verifiedVouches, incoming. do 2 f_equal.
  apply List.filter_ext_in. intros v Hin. apply list_elem_of_In in Hin.
  specialize (Hall v Hin). unfold joins_verified, isVoucherVerified in *.
  destruct (agents db !! from_agent_id v); [|done]. by rewrite Hall, andb_true_r.
Qed.

Lemma reachable_vouch_count db (k : string) (a : Agent) :
  reachable db ->
  agents db !! k = Some a ->
  vouch_count a = Z.of_nat (length (incoming db k))
  /\ vouch_count a = verifiedVouches db k.
Proof.
  intros Hreach Hrow. pose proof (reachable_store_inv db Hreach) as Hinv.
  pose proof (inv_counter db Hinv k a Hrow) as Hcount.
  split; [done|]. rewrite Hcount. symmetry. apply verified_incoming.
  intros v Hv. by destruct (inv_ends db Hinv v Hv).
Qed.

Lemma demo_ben_row : agents demo_db !! "mlt_benbenbenben" = Some demo_ben.
Proof. vm_compute. reflexivity. Qed.

Lemma demo_ann_row : agents demo_db !! "mlt_annannannann" = Some demo_ann.
Proof. vm_compute. reflexivity. Qed.

End Counters.

(** X20: in every store the endpoints can produce, the stored counter
    [vouch_count] of each agent is the number of vouch rows that point at
    it, which is also the number of qualifying vouches the score counts and
    the length of what [getVouches] returns; and [getVouches] lists no
    voucher twice. *)
Theorem reachable_counter (db : D1Database) (k : string) (a : Agent) :
  reachable db ->
  agents db !! k = Some a ->
  vouch_count a = Z.of_nat (length (incoming db k))
  /\ vouch_count a = verifiedVouches db k
  /\ exists vouchers,
       getVouches k db = (Ok vouchers, db)
       /\ Z.of_nat (length vouchers) = vouch_count a
       /\ NoDup vouchers.
Proof.
  intros Hreach Hrow. pose proof (reachable_store_inv db Hreach) as Hinv.
  destruct (reachable_vouch_count db k a Hreach Hrow) as [Hcount Hqual].
  split; [done|]. split; [done|].
  eexists. split; [reflexivity|]. split.
  - rewrite length_fmap. by rewrite Hcount.
  - apply vouchers_NoDup. apply (inv_edges db Hinv).
Qed.

Lemma reachable_counter_witness :
  vouch_count demo_ben = 1
  /\ vouch_count demo_ben = verifiedVouches demo_db "mlt_benbenbenben".
Proof.
  destruct (reachable_counter demo_db "mlt_benbenbenben" demo_ben demo_db_reachable
              demo_ben_row) as (Hcount & Hqual & _).
  split; [rewrite Hcount; vm_compute; reflexivity|exact Hqual].
Defined.

(** X21: in every store the endpoints can produce, the four factors that
    the trust endpoint reports for an agent add up to exactly the score
    [calculateScore] gives for it at the same clock read. *)
Theorem reachable_breakdown (db : D1Database) (k : string) (a : Agent) (now : Z) :
  reachable db ->
  agents db !! k = Some a ->
  trust_route now k db = (Ok (ReplyData 200 (getDetails a now)), db)
  /\ factors_sum (factors (getDetails a now)) = calculateScore db k now.
Proof.
  intros Hreach Hrow. split.
  - unfold trust_route, mbind, M_bind, getById, query. by rewrite Hrow.
  - destruct (reachable_vouch_count db k a Hreach Hrow) as [_ Hqual].
    rewrite (calculateScore_sum _ _ _ _ Hrow), <- Hqual. reflexivity.
Qed.

Lemma reachable_breakdown_witness :
  factors_sum (factors (getDetails demo_ben (t0 + 30 * MS_PER_DAY)))
  = calculateScore demo_db "mlt_benbenbenben" (t0 + 30 * MS_PER_DAY).
Proof.
  apply (reachable_breakdown demo_db "mlt_benbenbenben" demo_ben (t0 + 30 * MS_PER_DAY)
           demo_db_reachable demo_ben_row).
Defined.

(** X22: in every store the endpoints can produce, a username is held by
    one agent at most, so [getByMoltbook] returns exactly the agent that
    holds the username it is asked for. *)
Theorem reachable_usernames (db : D1Database) (k : string) (a : Agent) (u : string) :
  reachable db ->
  agents db !! k = Some a ->
  moltbook_username a = Some u ->
  getByMoltbook u db = (Ok (Some a), db)
  /\ (forall k' a', agents db !! k' = Some a' -> moltbook_username a' = Some u -> k' = k).
Proof.
  intros Hreach Hrow Hname. pose proof (reachable_store_inv db Hreach) as Hinv.
  assert (forall k' a', agents db !! k' = Some a' ->
                        moltbook_username a' = Some u -> k' = k) as Honly.
  { intros k' a' Hrow' Hname'.
    exact (inv_usernames db Hinv k' k a' a u Hrow' Hrow Hname' Hname). }
  split; [|exact Honly].
  apply (getByMoltbook_only db u k a Hrow Hname).
  intros k' a' Hrow' Hname'. rewrite (Honly k' a' Hrow' Hname') in Hrow'. congruence.
Qed.

Lemma reachable_usernames_witness :
  getByMoltbook "ann" demo_db = (Ok (Some demo_ann), demo_db).
Proof.
  apply (reachable_usernames demo_db "mlt_annannannann" demo_ann "ann"
           demo_db_reachable demo_ann_row).
  vm_compute. reflexivity.
Defined.

(** X23: in every store the endpoints can produce, each agent row is filed
    under its own id and carries the verification code
    [moltid-verify:<id>]; it is either verified, active and with a karma
    value, or unverified, pending and without karma (no agent is ever
    suspended); and its stored score is at most 100. *)
Theorem reachable_lifecycle (db : D1Database) (k : string) (a : Agent) :
  reachable db ->
  agents db !! k = Some a ->
  id a = k
  /\ verification_code a = Some ("moltid-verify:" +:+ k)
  /\ status a <> suspended
  /\ (moltbook_verified a = true <-> status a = active)
  /\ (moltbook_verified a = true <-> is_Some (moltbook_karma a))
  /\ trust_score a <= 100.
Proof.
  intros Hreach Hrow. pose proof (reachable_store_inv db Hreach) as Hinv.
  pose proof (inv_status db Hinv k a Hrow) as Hstatus.
  split; [exact (inv_ids db Hinv k a Hrow)|].
  split; [exact (inv_codes db Hinv k a Hrow)|].
  split; [|split; [|split; [|exact (inv_score db Hinv k a Hrow)]]].
  - destruct (moltbook_verified a); destruct Hstatus as [-> _]; done.
  - destruct (moltbook_verified a); destruct Hstatus as [-> _]; done.
  - destruct (moltbook_verified a); destruct Hstatus as [_ Hk].
    + done.
    + rewrite Hk. split; [done|]. by intros [? ?].
Qed.

Lemma reachable_lifecycle_witness :
  id demo_ann = "mlt_annannannann"
  /\ status demo_ann <> suspended
  /\ trust_score demo_ann <= 100.
Proof.
  destruct (reachable_lifecycle demo_db "mlt_annannannann" demo_ann demo_db_reachable
              demo_ann_row) as (Hid & _ & Hstatus & _ & _ & Hscore).
  split; [exact Hid|]. split; [exact Hstatus|exact Hscore].
Defined.

(** X24: no request removes anything.  After any request, every agent that
    had a row still has one, with the same id, username and [created_at]; an
    agent that was verified is still verified; no stored vouch counter has
    gone down; and the vouch table is the old one with at most one row
    appended. *)
Theorem handle_never_removes (db : D1Database) (r : Request) :
  (forall k a,
      agents db !! k = Some a ->
      exists a',
        agents (handle r db) !! k = Some a'
        /\ id a' = id a
        /\ moltbook_username a' = moltbook_username a
        /\ created_at a' = created_at a
        /\ (moltbook_verified a = true -> moltbook_verified a' = true)
        /\ vouch_count a <= vouch_count a')
  /\ exists added,
       vouches (handle r db) = vouches db ++ added /\ (length added <= 1)%nat.
Proof.
  assert (forall k a, agents db !! k = Some a ->
            exists a', agents db !! k = Some a' /\ id a' = id a
                       /\ moltbook_username a' = moltbook_username a
                       /\ created_at a' = created_at a
                       /\ (moltbook_verified a = true -> moltbook_verified a' = true)
                       /\ vouch_count a <= vouch_count a') as Hsame.
  { intros k a Hrow. exists a. repeat (split; [done|]). lia. }
  assert (exists added : list Vouch,
             vouches db = vouches db ++ added /\ (length added <= 1)%nat) as Hnone.
  { exists []. rewrite app_nil_r. split; [done|cbn; lia]. }
  destruct r as [nanoid12 now input|env agentId fetched|env toId fromId]; cbn [handle].
  - destruct (create_route_store db nanoid12 now input) as [->|(Hid & _ & ->)];
      [done|]. split; [|exact Hnone].
    intros k a Hrow. exists a. cbn [agents with_agents].
    rewrite lookup_insert_ne by congruence. repeat (split; [done|]). lia.
  - destruct (verify_route_store db env agentId fetched) as [->|(b & kk & Hb & ->)];
      [done|]. split; [|exact Hnone].
    intros k a Hrow. unfold after_verify_route, after_verified, with_agents.
    cbn [agents]. destruct (decide (k = agentId)) as [->|Hk].
    + rewrite !lookup_alter_eq, Hrow. cbn. eexists. split; [reflexivity|].
      cbn. repeat (split; [done|]). lia.
    + rewrite !lookup_alter_ne by done. exists a. repeat (split; [done|]). lia.
  - rewrite vouch_route_decided.
    destruct (negb (vouchSchema fromId)); [done|].
    destruct (not_verified (agents db !! fromId)); [done|].
    destruct (bool_decide (agents db !! toId = None)); [done|].
    destruct (bool_decide (fromId = toId)); [done|].
    destruct (negb (fresh_vouch_id db (env_nanoid env)) || has_edge db fromId toId);
      [done|].
    cbn [snd]. unfold after_vouch_route, after_addVouch, with_agents.
    cbn [agents vouches]. split.
    + intros k a Hrow. destruct (decide (k = toId)) as [->|Hk].
      * rewrite !lookup_alter_eq, Hrow. cbn. eexists. split; [reflexivity|].
        cbn. repeat (split; [done|]). lia.
      * rewrite !lookup_alter_ne by done. exists a. repeat (split; [done|]). lia.
    + eexists. split; [reflexivity|]. cbn. lia.
Qed.

Lemma handle_never_removes_witness :
  exists a',
    agents (handle (PostAgent "benbenbenben" (t0 + 5) ben_input) demo_db)
      !! "mlt_annannannann" = Some a'
    /\ moltbook_verified a' = true.
Proof.
  destruct (handle_never_removes demo_db (PostAgent "benbenbenben" (t0 + 5) ben_input))
    as [Hrows _].
  destruct (Hrows "mlt_annannannann" demo_ann demo_ann_row)
    as (a' & Hrow & _ & _ & _ & Hflag & _).
  exists a'. split; [exact Hrow|]. apply Hflag. vm_compute. reflexivity.
Defined.

(** * Search *)

#[export] Instance by_trust_desc_trans : Transitive by_trust_desc.
Proof. unfold by_trust_desc. intros a b c. lia. Qed.

#[export] Instance by_trust_desc_total : Total by_trust_desc.
Proof. unfold by_trust_desc. intros a b. lia. Qed.

Section SearchFacts.

Variable JSON_stringify : list string -> string.
Variable sql_like : string -> string -> bool.

Lemma limit_offset_subseteq {A : Type} (limit offset : Z) (l : list A) :
  limit_offset limit offset l ⊆ l.
Proof.
  unfold limit_offset. destruct (limit <? 0).
  - apply subseteq_drop.
  - etrans; [apply subseteq_take|apply subseteq_drop].
Qed.

Lemma StronglySorted_drop {A : Type} (R : relation A) (n : nat) (l : list A) :
  StronglySorted R l -> StronglySorted R (drop n l).
Proof.
  intros H. rewrite <- (take_drop n l) in H. by apply StronglySorted_app_1_r in H.
Qed.

Lemma StronglySorted_take {A : Type} (R : relation A) (n : nat) (l : list A) :
  StronglySorted R l -> StronglySorted R (take n l).
Proof.
  intros H. rewrite <- (take_drop n l) in H. by apply StronglySorted_app_1_l in H.
Qed.

Lemma limit_offset_sorted {A : Type} (R : relation A) (limit offset : Z) (l : list A) :
  StronglySorted R l -> StronglySorted R (limit_offset limit offset l).
Proof.
  intros H. unfold limit_offset. destruct (limit <? 0).
  - by apply StronglySorted_drop.
  - by apply StronglySorted_take, StronglySorted_drop.
Qed.

Lemma search_rows_matching (q : SearchQuery) (db : D1Database) (a : Agent) :
  a ∈ search_rows JSON_stringify sql_like q db ->
  (exists k, agents db !! k = Some a)
  /\ search_where JSON_stringify sql_like q a = true.
Proof.
  unfold search_rows. intros Hin. apply limit_offset_subseteq in Hin.
  rewrite merge_sort_Permutation in Hin.
  apply list_elem_of_In, List.filter_In in Hin as [Hin Hwhere].
  split; [|done]. apply scan_in_table. by apply list_elem_of_In.
Qed.

End SearchFacts.

(** X25: [search] only ever returns active agents that are rows of the
    table and pass every filter that was given (the verification flag, the
    minimum score); it returns them in order of descending score, and for a
    limit that is not negative returns at most that many. *)
Theorem search_results (JSON_stringify : list string -> string)
    (sql_like : string -> string -> bool) (q : SearchQuery) (db : D1Database) :
  exists rows,
    search JSON_stringify sql_like q db = (Ok (toPublic <$> rows), db)
    /\ (forall a, a ∈ rows ->
          (exists k, agents db !! k = Some a)
          /\ status a = active
          /\ (forall flag, q_verified q = Some flag -> moltbook_verified a = flag)
          /\ (forall m, q_min_trust q = Some m -> m <= trust_score a))
    /\ StronglySorted (fun p1 p2 => p_trust_score p2 <= p_trust_score p1)
         (toPublic <$> rows)
    /\ (0 <= q_limit q -> (length rows <= Z.to_nat (q_limit q))%nat).
Proof.
  exists (search_rows JSON_stringify sql_like q db). split; [reflexivity|].
  split; [|split].
  - intros a Hin.
    destruct (search_rows_matching JSON_stringify sql_like q db a Hin) as [Hrow Hwhere].
    split; [done|]. unfold search_where in Hwhere.
    apply andb_true_iff in Hwhere as [Hwhere _].
    apply andb_true_iff in Hwhere as [Hwhere Hmin].
    apply andb_true_iff in Hwhere as [Hstatus Hflag].
    split; [by apply bool_decide_eq_true in Hstatus|]. split.
    + intros flag Hq. rewrite Hq in Hflag. by apply bool_decide_eq_true in Hflag.
    + intros m Hq. rewrite Hq in Hmin. by apply Z.leb_le in Hmin.
  - apply StronglySorted_fmap with (R1 := by_trust_desc); [by intros a b H|].
    unfold search_rows. apply limit_offset_sorted.
    apply StronglySorted_merge_sort; apply _.
  - intros Hlimit. unfold search_rows, limit_offset.
    destruct (q_limit q <? 0) eqn:Hneg; [apply Z.ltb_lt in Hneg; lia|].
    rewrite length_take. lia.
Qed.

Lemma search_results_witness :
  exists rows,
    search (fun _ => EmptyString) (fun _ _ => true) verified_first_page demo_db
    = (Ok (toPublic <$> rows), demo_db)
    /\ (length rows <= 10)%nat.
Proof.
  destruct (search_results (fun _ => EmptyString) (fun _ _ => true)
              verified_first_page demo_db) as (rows & Hsearch & _ & _ & Hlimit).
  exists rows. split; [exact Hsearch|]. apply Hlimit. vm_compute. discriminate.
Defined.

(** X26: the pages of a search fit together: on an unchanged store, the
    page at offset [o] with limit [n] followed by the page at offset
    [o + n] with limit [m] is the page at offset [o] with limit [n + m]. *)
Theorem search_pages_concat (JSON_stringify : list string -> string)
    (sql_like : string -> string -> bool) (q : SearchQuery) (db : D1Database)
    (o n m : Z) :
  0 <= o -> 0 <= n -> 0 <= m ->
  search_rows JSON_stringify sql_like (page q o n) db
  ++ search_rows JSON_stringify sql_like (page q (o + n) m) db
  = search_rows JSON_stringify sql_like (page q o (n + m)) db.
Proof.
  intros Ho Hn Hm. unfold search_rows, limit_offset. cbn [q_limit q_offset page].
  assert (forall x, search_where JSON_stringify sql_like (page q o x)
                    = search_where JSON_stringify sql_like q) as Hw1 by reflexivity.
  change (search_where JSON_stringify sql_like (page q o n))
    with (search_where JSON_stringify sql_like q).
  change (search_where JSON_stringify sql_like (page q (o + n) m))
    with (search_where JSON_stringify sql_like q).
  change (search_where JSON_stringify sql_like (page q o (n + m)))
    with (search_where JSON_stringify sql_like q).
  destruct (n <? 0) eqn:H1; [apply Z.ltb_lt in H1; lia|].
  destruct (m <? 0) eqn:H2; [apply Z.ltb_lt in H2; lia|].
  destruct (n + m <? 0) eqn:H3; [apply Z.ltb_lt in H3; lia|].
  rewrite (Z2Nat.inj_add o n), (Z2Nat.inj_add n m) by lia.
  rewrite <- drop_drop. apply take_take_drop.
Qed.

Lemma search_pages_concat_witness :
  search_rows (fun _ => EmptyString) (fun _ _ => true) (page verified_first_page 0 1) demo_db
  ++ search_rows (fun _ => EmptyString) (fun _ _ => true)
       (page verified_first_page (0 + 1) 4) demo_db
  = search_rows (fun _ => EmptyString) (fun _ _ => true)
      (page verified_first_page 0 (1 + 4)) demo_db.
Proof.
  apply (search_pages_concat (fun _ => EmptyString) (fun _ _ => true)
           verified_first_page demo_db 0 1 4); vm_compute; discriminate.
Defined.
